(** * UBELEZA backend: cycles, earnings, expenses and archives

    A shallow embedding of [backend/models.py] and [backend/app.py]: the four
    tables as lists of rows in insertion order, every request handler as a
    function from the store to the new store and the response, and the
    properties of the cycle lifecycle and of the running totals proved on
    those functions. *)

From Stdlib Require Import QArith Ascii String Sorted.
From stdpp Require Import base numbers strings gmap list.

Local Open Scope Z_scope.

(** ** Values *)

(** [Decimal]: the monetary columns are [Numeric(10, 2)]; a value is held as
    its number of hundredths, so that [Decimal('20.00')] is [2000]. Sums and
    comparisons of such values are exact, as they are on Python's [Decimal]. *)
Definition Decimal : Type := Z.

(** A [datetime] is a point on a discrete time line. *)
Definition datetime : Type := Z.

(** Python's exceptions that the handlers name in their [except] clauses. *)
Inductive exn : Type := InvalidOperation | TypeError | ValueError.

Inductive pyres (A : Type) : Type :=
  | Ok (a : A)
  | Raise (e : exn).
Arguments Ok {A} a.
Arguments Raise {A} e.

(** The scalar values of a decoded JSON body. [JNull] is Python's [None],
    [JInt] a Python [int], [JFloat] a Python [float] (held in hundredths, like
    a [Decimal]), [JStr] a [str]. Arrays and nested objects are not values of
    any field the handlers read, and are left out. *)
Inductive json : Type :=
  | JNull
  | JBool (b : bool)
  | JInt (n : Z)
  | JFloat (d : Decimal)
  | JStr (s : string).

(** The body of a request, [request.get_json()]: [None] when it decodes to
    [None], otherwise the decoded object. *)
Abbreviation dict := (gmap string json).

(** [data.get(k)]: [None] for a missing key. *)
Definition dict_get (data : dict) (k : string) : json :=
  default JNull (data !! k).

(** [k in data]. *)
Definition dict_has (data : dict) (k : string) : bool :=
  bool_decide (is_Some (data !! k)).

(** Truth value of a decoded body: [None] and [{}] are false. *)
Definition dict_truthy (data : option dict) : bool :=
  match data with
  | None => false
  | Some d => negb (bool_decide (d = ∅))
  end.

(** Truth value of a scalar, as [if x] tests it. *)
Definition truthy (v : json) : bool :=
  match v with
  | JNull => false
  | JBool b => b
  | JInt n => negb (n =? 0)
  | JFloat d => negb (d =? 0)
  | JStr s => negb (bool_decide (s = ""))
  end.

(** Python's conversions of text, taken as given: [int(s)], [Decimal(s)] and
    [datetime.fromisoformat(s)] on a [str]; [None] stands for the exception
    each of them raises on text it does not accept. *)
Class PyText : Type := {
  str_to_int : string → option Z;
  str_to_Decimal : string → option Decimal;
  str_fromisoformat : string → option datetime
}.

Section Conversions.
Context `{PyText}.

(** [int(v)]. A [float] is truncated towards zero. *)
Definition py_int (v : json) : pyres Z :=
  match v with
  | JNull => Raise TypeError
  | JBool b => Ok (if b then 1 else 0)
  | JInt n => Ok n
  | JFloat d => Ok (d `quot` 100)
  | JStr s => match str_to_int s with
              | Some n => Ok n
              | None => Raise ValueError
              end
  end.

(** [Decimal(v)]. *)
Definition py_Decimal (v : json) : pyres Decimal :=
  match v with
  | JNull => Raise TypeError
  | JBool b => Ok (if b then 100 else 0)
  | JInt n => Ok (100 * n)
  | JFloat d => Ok d
  | JStr s => match str_to_Decimal s with
              | Some d => Ok d
              | None => Raise InvalidOperation
              end
  end.

(** [datetime.fromisoformat(v)]. *)
Definition py_fromisoformat (v : json) : pyres datetime :=
  match v with
  | JStr s => match str_fromisoformat s with
              | Some t => Ok t
              | None => Raise ValueError
              end
  | _ => Raise TypeError
  end.

(** [datetime.fromisoformat(data.get('timestamp', now.isoformat()))]: the
    ISO text of [now] reads back as [now]. *)
Definition timestamp_of (data : dict) (now : datetime) : pyres datetime :=
  match data !! "timestamp" with
  | None => Ok now
  | Some v => py_fromisoformat v
  end.
End Conversions.

(** ** The models ([models.py]) *)

Module CurrentCycle.
Record t : Type := mk {
  id : Z;
  gas_cost : Decimal;
  start_km : option Z;
  end_km : option Z;
  fuel_price_per_liter : option Decimal;
  is_active : bool;
  start_time : datetime;
  cumulative_earnings : Decimal;
  cumulative_race_count : Z;
  current_period_earnings : Decimal;
  current_period_race_count : Z
}.

Definition set_gas_cost (x : Decimal) (c : t) : t :=
  mk (id c) x (start_km c) (end_km c) (fuel_price_per_liter c) (is_active c)
     (start_time c) (cumulative_earnings c) (cumulative_race_count c)
     (current_period_earnings c) (current_period_race_count c).
Definition set_start_km (x : option Z) (c : t) : t :=
  mk (id c) (gas_cost c) x (end_km c) (fuel_price_per_liter c) (is_active c)
     (start_time c) (cumulative_earnings c) (cumulative_race_count c)
     (current_period_earnings c) (current_period_race_count c).
Definition set_end_km (x : option Z) (c : t) : t :=
  mk (id c) (gas_cost c) (start_km c) x (fuel_price_per_liter c) (is_active c)
     (start_time c) (cumulative_earnings c) (cumulative_race_count c)
     (current_period_earnings c) (current_period_race_count c).
Definition set_fuel_price_per_liter (x : option Decimal) (c : t) : t :=
  mk (id c) (gas_cost c) (start_km c) (end_km c) x (is_active c)
     (start_time c) (cumulative_earnings c) (cumulative_race_count c)
     (current_period_earnings c) (current_period_race_count c).
Definition set_is_active (x : bool) (c : t) : t :=
  mk (id c) (gas_cost c) (start_km c) (end_km c) (fuel_price_per_liter c) x
     (start_time c) (cumulative_earnings c) (cumulative_race_count c)
     (current_period_earnings c) (current_period_race_count c).
Definition set_cumulative_earnings (x : Decimal) (c : t) : t :=
  mk (id c) (gas_cost c) (start_km c) (end_km c) (fuel_price_per_liter c)
     (is_active c) (start_time c) x (cumulative_race_count c)
     (current_period_earnings c) (current_period_race_count c).
Definition set_cumulative_race_count (x : Z) (c : t) : t :=
  mk (id c) (gas_cost c) (start_km c) (end_km c) (fuel_price_per_liter c)
     (is_active c) (start_time c) (cumulative_earnings c) x
     (current_period_earnings c) (current_period_race_count c).
Definition set_current_period_earnings (x : Decimal) (c : t) : t :=
  mk (id c) (gas_cost c) (start_km c) (end_km c) (fuel_price_per_liter c)
     (is_active c) (start_time c) (cumulative_earnings c)
     (cumulative_race_count c) x (current_period_race_count c).
Definition set_current_period_race_count (x : Z) (c : t) : t :=
  mk (id c) (gas_cost c) (start_km c) (end_km c) (fuel_price_per_liter c)
     (is_active c) (start_time c) (cumulative_earnings c)
     (cumulative_race_count c) (current_period_earnings c) x.

(** [CurrentCycle(is_active=False)], inserted at [now] under the key [i]:
    every other column takes its default ([0.0], [0], [NULL], and
    [datetime.utcnow] for [start_time]). *)
Definition inactive (i : Z) (now : datetime) : t :=
  mk i 0 None None None false now 0 0 0 0.
End CurrentCycle.

Module Earning.
Record t : Type := mk {
  id : Z;
  cycle_id : Z;
  timestamp : datetime;
  amount : Decimal
}.
Definition set_amount (x : Decimal) (e : t) : t :=
  mk (id e) (cycle_id e) (timestamp e) x.
End Earning.

Module Expense.
Record t : Type := mk {
  id : Z;
  cycle_id : Z;
  timestamp : datetime;
  category : json;
  amount : Decimal
}.
End Expense.

Module Archive.
(** The keys that only a full-cycle document has. [summary_kmPerLiter] and
    [summary_costPerKm] hold the quotient itself where the document holds
    its text with two decimals, and [None] where it holds ["N/A"]. *)
Record full : Type := mk_full {
  cycleEarnings : Decimal;
  gasCost : Decimal;
  expensesList : list Expense.t;
  cycleRaceCount : Z;
  startKM : option Z;
  endKM : option Z;
  fuelPricePerLiter : option Decimal;
  summary_totalOtherExpenses : Decimal;
  summary_profit : Decimal;
  summary_kmDriven : Z;
  summary_kmPerLiter : option Q;
  summary_costPerKm : option Q
}.

(** The keys that only a partial-period document has. *)
Record partial : Type := mk_partial {
  periodEarnings : Decimal;
  periodRaceCount : Z;
  gasCostSnapshot : Decimal;
  cycleProfitSnapshot : Decimal
}.

Inductive shape : Type :=
  | CicloCompleto (f : full)
  | PeriodoParcial (p : partial).

(** [archive_data], the JSONB document: the keys the two shapes share, and
    the shape. [db_id] is absent until [to_dict] adds it. *)
Record document : Type := mk_document {
  archiveDate : datetime;
  periodEndDate : datetime;
  earningsDetails : list Earning.t;
  note : json;
  detail : shape;
  db_id : option Z
}.

Definition archiveType (d : document) : string :=
  match detail d with
  | CicloCompleto _ => "Ciclo Completo"
  | PeriodoParcial _ => "Período Parcial"
  end.

Record t : Type := mk {
  id : Z;
  archive_data : document;
  archive_date : datetime
}.

(** [to_dict]: the stored document with [db_id] and [archiveDate] set from
    the row. *)
Definition to_dict (a : t) : document :=
  let data := archive_data a in
  mk_document (archive_date a) (periodEndDate data) (earningsDetails data)
              (note data) (detail data) (Some (id a)).
End Archive.

(** ** The store *)

(** The four tables, each in insertion order, and the next key of each
    sequence. Keys are never reused, also after the rows are deleted. *)
Record database : Type := mk_database {
  cycles : list CurrentCycle.t;
  earnings : list Earning.t;
  expenses : list Expense.t;
  archives : list Archive.t;
  next_cycle_id : Z;
  next_earning_id : Z;
  next_expense_id : Z;
  next_archive_id : Z
}.

Definition empty_database : database := mk_database [] [] [] [] 1 1 1 1.

(** [order_by(key.asc())]: rows with equal keys keep their table order. *)
Fixpoint insert_by {A : Type} (key : A → Z) (x : A) (l : list A) : list A :=
  match l with
  | [] => [x]
  | y :: l' => if key x <=? key y then x :: l else y :: insert_by key x l'
  end.

Definition order_by {A : Type} (key : A → Z) (l : list A) : list A :=
  foldr (insert_by key) [] l.

(** [UPDATE current_cycle ... WHERE id = c.id]: what committing the changed
    object [c] does to the table. *)
Definition save_cycle (c : CurrentCycle.t) (l : list CurrentCycle.t)
  : list CurrentCycle.t :=
  map (λ r, if CurrentCycle.id r =? CurrentCycle.id c then c else r) l.

Definition save_earning (e : Earning.t) (l : list Earning.t) : list Earning.t :=
  map (λ r, if Earning.id r =? Earning.id e then e else r) l.

(** [cycle.earnings] and [cycle.expenses], the dynamic relationships. *)
Definition cycle_earnings (db : database) (c : CurrentCycle.t) : list Earning.t :=
  List.filter (λ e, Earning.cycle_id e =? CurrentCycle.id c) (earnings db).

Definition cycle_expenses (db : database) (c : CurrentCycle.t) : list Expense.t :=
  List.filter (λ e, Expense.cycle_id e =? CurrentCycle.id c) (expenses db).

(** [Earning.query.filter_by(id=earning_id, cycle_id=cycle.id).first()]. *)
Definition find_earning (db : database) (earning_id : Z) (c : CurrentCycle.t)
  : option Earning.t :=
  List.find (λ e, (Earning.id e =? earning_id)
                  && (Earning.cycle_id e =? CurrentCycle.id c)) (earnings db).

Definition find_expense (db : database) (expense_id : Z) (c : CurrentCycle.t)
  : option Expense.t :=
  List.find (λ e, (Expense.id e =? expense_id)
                  && (Expense.cycle_id e =? CurrentCycle.id c)) (expenses db).

(** [sum(Decimal(exp['amount']) for exp in expenses_list)]. *)
Definition sum_amounts (l : list Expense.t) : Decimal :=
  foldr (λ e acc, Expense.amount e + acc) 0 l.

(** ** Responses *)

(** The texts of the [error] (and, for [NoValidField], [message]) key of a
    response, one constructor per text of [app.py]. *)
Inductive error : Type :=
  | InvalidPayload                    (* "Payload inválido" *)
  | GasCostNotPositive                (* "Custo da gasolina deve ser positivo" *)
  | InvalidGasCost                    (* "Valor inválido para custo da gasolina" *)
  | NoActiveCycleToFinalize           (* "Nenhum ciclo ativo para finalizar" *)
  | EndKmBelowStartKm (end_km start_km : Z)
                                      (* "KM Final (..) não pode ser menor que Inicial (..)" *)
  | InvalidEndKm                      (* "Valor inválido para KM final" *)
  | NoActiveCycleForEarnings          (* "Nenhum ciclo ativo para adicionar ganhos" *)
  | EarningPayloadIncomplete          (* "Payload inválido. 'amount' e 'new_period_total' são obrigatórios" *)
  | InvalidData (e : exn)             (* "Dados inválidos: .." *)
  | InactiveCycle                     (* "Ciclo inativo" *)
  | EarningNotFound                   (* "Corrida não encontrada neste ciclo" *)
  | AmountRequired                    (* "Payload inválido. 'amount' é obrigatório" *)
  | NegativeEarning                   (* "Valor da corrida não pode ser negativo" *)
  | InvalidAmount                     (* "Valor inválido para amount" *)
  | NoActiveCycleForExpenses          (* "Nenhum ciclo ativo para adicionar despesas" *)
  | ExpensePayloadIncomplete          (* "Payload inválido. 'category' e 'amount' são obrigatórios" *)
  | ExpenseNotPositive                (* "Valor da despesa deve ser positivo" *)
  | ExpenseNotFound                   (* "Despesa não encontrada neste ciclo" *)
  | NoActiveCycleToArchive            (* "Nenhum ciclo ativo para arquivar período" *)
  | NothingToArchive                  (* "Sem dados no período atual para arquivar" *)
  | ArchiveNotFound                   (* "Arquivo não encontrado" *)
  | NoActiveCycleToUpdate             (* "Nenhum ciclo ativo para atualizar" *)
  | StartKmAboveEndKm (start_km end_km : Z)
                                      (* "KM inicial (..) não pode ser maior que KM final (..)" *)
  | EndKmBelowStartKm' (end_km start_km : Z)
                                      (* "KM final (..) não pode ser menor que KM inicial (..)" *)
  | NoValidField.                     (* "Nenhum campo válido para atualizar foi fornecido" *)

(** The body of [GET /api/state]. A row stands for its [to_dict]: that lists
    every column of the row. *)
Record app_state : Type := mk_app_state {
  currentCycle : option CurrentCycle.t;
  earningsList : list Earning.t;
  expenseList : list Expense.t;
  archives_of_state : list Archive.document
}.

Inductive body : Type :=
  | State (s : app_state)
  | Cycle (c : CurrentCycle.t)
  | Archives (l : list Archive.document)
  | Deleted (l : list Archive.document)   (* message "Arquivo excluído." and the archives *)
  | ResetDone                             (* message "Banco de dados resetado com sucesso." *)
  | Error (e : error)
  | Unhandled (e : exn).                  (* an exception no handler catches *)

(** A response: its body and its status code. *)
Definition response : Type := body * Z.

Definition pyres_map {A B : Type} (f : A → B) (r : pyres A) : pyres B :=
  match r with
  | Ok a => Ok (f a)
  | Raise e => Raise e
  end.

(** A [Decimal] as the rational it denotes. *)
Definition Decimal_to_Q (d : Decimal) : Q := Qmake d 100.

(** The course of a [try] block that can also [return] early: it goes on with
    a value, raises, or returns a response. *)
Inductive flow (A : Type) : Type :=
  | Next (a : A)
  | Throw (e : exn)
  | Return (r : response).
Arguments Next {A} a.
Arguments Throw {A} e.
Arguments Return {A} r.

Definition and_then {A B : Type} (m : flow A) (k : A → flow B) : flow B :=
  match m with
  | Next a => k a
  | Throw e => Throw e
  | Return r => Return r
  end.

Definition of_pyres {A : Type} (r : pyres A) : flow A :=
  match r with
  | Ok a => Next a
  | Raise e => Throw e
  end.

(** ** The handlers ([app.py]) *)

(** Every handler takes the reading of the clock for the request ([now], what
    [datetime.utcnow()] returns), its arguments and the store, and gives the
    store after the request and the response. A handler that returns before
    its [commit], or that rolls back, gives the store back as it was. *)

Section Handlers.
Context `{PyText}.

Definition get_active_cycle (db : database) : option CurrentCycle.t :=
  List.find CurrentCycle.is_active (cycles db).

Definition get_or_create_active_cycle (now : datetime) (db : database)
  : database * CurrentCycle.t :=
  match get_active_cycle db with
  | Some cycle => (db, cycle)
  | None =>
      let cycle := CurrentCycle.inactive (next_cycle_id db) now in
      (mk_database (cycles db ++ [cycle]) (earnings db) (expenses db)
                   (archives db) (next_cycle_id db + 1) (next_earning_id db)
                   (next_expense_id db) (next_archive_id db),
       cycle)
  end.

(** [Archive.query.order_by(Archive.archive_date.desc()).all()], each row
    through [to_dict]. *)
Definition archives_list (db : database) : list Archive.document :=
  map Archive.to_dict
      (order_by (λ a, - Archive.archive_date a) (archives db)).

Definition get_app_state (now : datetime) (db : database)
  : database * app_state :=
  let '(db, cycle) := get_or_create_active_cycle now db in
  (db,
   mk_app_state (Some cycle)
     (order_by Earning.timestamp (cycle_earnings db cycle))
     (order_by Expense.timestamp (cycle_expenses db cycle))
     (archives_list db)).

(** [GET /api/state]. *)
Definition get_state (now : datetime) (db : database) : database * response :=
  let '(db, st) := get_app_state now db in (db, (State st, 200)).

(** [POST /api/cycles/start]. The conversions of [start_km] and
    [fuel_price] stand outside the [try]: what they raise is not caught. *)
Definition start_cycle (now : datetime) (data : option dict) (db : database)
  : database * response :=
  if negb (dict_truthy data) then (db, (Error InvalidPayload, 400)) else
  let data := default ∅ data in
  let gas_cost_str := dict_get data "gas_cost" in
  let start_km_str := dict_get data "start_km" in
  let fuel_price_str := dict_get data "fuel_price" in
  match (match gas_cost_str with
         | JNull => Ok 0
         | _ => py_Decimal gas_cost_str
         end) with
  | Raise ValueError => (db, (Unhandled ValueError, 500))
  | Raise _ => (db, (Error InvalidGasCost, 400))
  | Ok gas_cost =>
      if gas_cost <=? 0 then (db, (Error GasCostNotPositive, 400)) else
      match (if truthy start_km_str
             then pyres_map Some (py_int start_km_str) else Ok None) with
      | Raise e => (db, (Unhandled e, 500))
      | Ok start_km =>
          match (if truthy fuel_price_str
                 then pyres_map Some (py_Decimal fuel_price_str)
                 else Ok None) with
          | Raise e => (db, (Unhandled e, 500))
          | Ok fuel_price =>
              let cycles1 :=
                match get_active_cycle db with
                | Some existing_active =>
                    save_cycle (CurrentCycle.set_is_active false existing_active)
                               (cycles db)
                | None => cycles db
                end in
              let new_cycle :=
                CurrentCycle.mk (next_cycle_id db) gas_cost start_km None
                                fuel_price true now 0 0 0 0 in
              (mk_database (cycles1 ++ [new_cycle]) (earnings db)
                           (expenses db) (archives db) (next_cycle_id db + 1)
                           (next_earning_id db) (next_expense_id db)
                           (next_archive_id db),
               (Cycle new_cycle, 201))
          end
      end
  end.

(** [km_driven] of [finalize_cycle]. *)
Definition km_driven_of (cycle : CurrentCycle.t) : Z :=
  match CurrentCycle.start_km cycle, CurrentCycle.end_km cycle with
  | Some s, Some e => if e >=? s then e - s else 0
  | _, _ => 0
  end.

(** [km_per_liter] of [finalize_cycle]. *)
Definition km_per_liter_of (cycle : CurrentCycle.t) (km_driven : Z) : option Q :=
  match CurrentCycle.fuel_price_per_liter cycle with
  | Some fuel_price =>
      if (km_driven >? 0) && (CurrentCycle.gas_cost cycle >? 0)
         && (fuel_price >? 0)
      then
        let liters_used :=
          Qdiv (Decimal_to_Q (CurrentCycle.gas_cost cycle))
               (Decimal_to_Q fuel_price) in
        if negb (Qle_bool liters_used (inject_Z 0))
        then Some (Qdiv (inject_Z km_driven) liters_used)
        else None
      else None
  | None => None
  end.

(** [cost_per_km] of [finalize_cycle]. *)
Definition cost_per_km_of (cycle : CurrentCycle.t)
    (total_other_expenses : Decimal) (km_driven : Z) : option Q :=
  if km_driven >? 0
  then Some (Qdiv (Decimal_to_Q (CurrentCycle.gas_cost cycle
                                 + total_other_expenses))
                  (inject_Z km_driven))
  else None.

(** The document [finalize_cycle] archives, for the cycle with its [end_km]
    already set. *)
Definition full_document (now : datetime) (db : database)
    (cycle : CurrentCycle.t) (note : json) : Archive.document :=
  let earnings_list := order_by Earning.timestamp (cycle_earnings db cycle) in
  let expenses_list := order_by Expense.timestamp (cycle_expenses db cycle) in
  let total_other_expenses := sum_amounts expenses_list in
  let profit := CurrentCycle.cumulative_earnings cycle
                - CurrentCycle.gas_cost cycle - total_other_expenses in
  let km_driven := km_driven_of cycle in
  Archive.mk_document now now earnings_list note
    (Archive.CicloCompleto
       (Archive.mk_full
          (CurrentCycle.cumulative_earnings cycle)
          (CurrentCycle.gas_cost cycle)
          expenses_list
          (CurrentCycle.cumulative_race_count cycle)
          (CurrentCycle.start_km cycle)
          (CurrentCycle.end_km cycle)
          (match CurrentCycle.fuel_price_per_liter cycle with
           | Some p => if p =? 0 then None else Some p
           | None => None
           end)
          total_other_expenses
          profit
          km_driven
          (km_per_liter_of cycle km_driven)
          (cost_per_km_of cycle total_other_expenses km_driven)))
    None.

(** Steps 1 to 4 of [finalize_cycle] and its return: the archive is
    inserted, the cycle (with its [end_km] set) is deactivated, both are
    committed, and the state is read again through [get_app_state]. *)
Definition archive_and_deactivate (now : datetime) (db : database)
    (cycle : CurrentCycle.t) (note : json) : database * response :=
  let archive_payload := full_document now db cycle note in
  let new_archive := Archive.mk (next_archive_id db) archive_payload now in
  let cycle := CurrentCycle.set_is_active false cycle in
  let db :=
    mk_database (save_cycle cycle (cycles db)) (earnings db) (expenses db)
                (archives db ++ [new_archive]) (next_cycle_id db)
                (next_earning_id db) (next_expense_id db)
                (next_archive_id db + 1) in
  let '(db, new_state) := get_app_state now db in
  (db, (State new_state, 200)).

(** [POST /api/cycles/finalize]. *)
Definition finalize_cycle (now : datetime) (data : option dict) (db : database)
  : database * response :=
  match get_active_cycle db with
  | None => (db, (Error NoActiveCycleToFinalize, 400))
  | Some cycle =>
      if negb (CurrentCycle.is_active cycle)
      then (db, (Error NoActiveCycleToFinalize, 400)) else
      let data := default ∅ data in
      let end_km_str := dict_get data "end_km" in
      let note := default (JStr "") (data !! "note") in
      match (match end_km_str with
             | JNull => Ok (CurrentCycle.start_km cycle)
             | _ => pyres_map Some (py_int end_km_str)
             end) with
      | Raise InvalidOperation => (db, (Unhandled InvalidOperation, 500))
      | Raise _ => (db, (Error InvalidEndKm, 400))
      | Ok end_km =>
          match CurrentCycle.start_km cycle, end_km with
          | Some s, None => (db, (Error InvalidEndKm, 400))
          | Some s, Some e =>
              if e <? s then (db, (Error (EndKmBelowStartKm e s), 400))
              else archive_and_deactivate now db (CurrentCycle.set_end_km end_km cycle) note
          | None, _ =>
              archive_and_deactivate now db (CurrentCycle.set_end_km end_km cycle) note
          end
      end
  end.

(** [POST /api/earnings]. *)
Definition add_earning (now : datetime) (data : option dict) (db : database)
  : database * response :=
  match get_active_cycle db with
  | None => (db, (Error NoActiveCycleForEarnings, 400))
  | Some cycle =>
      if negb (CurrentCycle.is_active cycle)
      then (db, (Error NoActiveCycleForEarnings, 400)) else
      let d := default ∅ data in
      if negb (dict_truthy data) || negb (dict_has d "amount")
         || negb (dict_has d "new_period_total")
      then (db, (Error EarningPayloadIncomplete, 400)) else
      match py_Decimal (dict_get d "amount") with
      | Raise e => (db, (Error (InvalidData e), 400))
      | Ok amount =>
          match py_Decimal (dict_get d "new_period_total") with
          | Raise e => (db, (Error (InvalidData e), 400))
          | Ok new_period_total =>
              match timestamp_of d now with
              | Raise e => (db, (Error (InvalidData e), 400))
              | Ok timestamp =>
                  let new_earning :=
                    Earning.mk (next_earning_id db) (CurrentCycle.id cycle)
                               timestamp amount in
                  let cycle :=
                    CurrentCycle.set_current_period_earnings new_period_total
                      cycle in
                  let cycle :=
                    CurrentCycle.set_cumulative_earnings
                      (CurrentCycle.cumulative_earnings cycle + amount) cycle in
                  let cycle :=
                    if amount >? 0 then
                      CurrentCycle.set_cumulative_race_count
                        (CurrentCycle.cumulative_race_count cycle + 1)
                        (CurrentCycle.set_current_period_race_count
                           (CurrentCycle.current_period_race_count cycle + 1)
                           cycle)
                    else cycle in
                  let db :=
                    if amount <? 0 then
                      mk_database (save_cycle cycle (cycles db)) (earnings db)
                                  (expenses db) (archives db)
                                  (next_cycle_id db) (next_earning_id db)
                                  (next_expense_id db) (next_archive_id db)
                    else
                      mk_database (save_cycle cycle (cycles db))
                                  (earnings db ++ [new_earning])
                                  (expenses db) (archives db)
                                  (next_cycle_id db) (next_earning_id db + 1)
                                  (next_expense_id db) (next_archive_id db) in
                  let '(db, updated_state) := get_app_state now db in
                  (db, (State updated_state, 200))
              end
          end
      end
  end.

(** [PUT /api/earnings/<earning_id>]. *)
Definition edit_earning (now : datetime) (earning_id : Z) (data : option dict)
    (db : database) : database * response :=
  match get_active_cycle db with
  | None => (db, (Error InactiveCycle, 400))
  | Some cycle =>
      if negb (CurrentCycle.is_active cycle)
      then (db, (Error InactiveCycle, 400)) else
      match find_earning db earning_id cycle with
      | None => (db, (Error EarningNotFound, 404))
      | Some earning =>
          let d := default ∅ data in
          if negb (dict_truthy data) || negb (dict_has d "amount")
          then (db, (Error AmountRequired, 400)) else
          match py_Decimal (dict_get d "amount") with
          | Raise ValueError => (db, (Unhandled ValueError, 500))
          | Raise _ => (db, (Error InvalidAmount, 400))
          | Ok new_amount =>
              if new_amount <? 0 then (db, (Error NegativeEarning, 400)) else
              let old_amount := Earning.amount earning in
              let difference := new_amount - old_amount in
              let earning := Earning.set_amount new_amount earning in
              let cycle :=
                CurrentCycle.set_cumulative_earnings
                  (CurrentCycle.cumulative_earnings cycle + difference) cycle in
              let cycle :=
                CurrentCycle.set_current_period_earnings
                  (CurrentCycle.current_period_earnings cycle + difference)
                  cycle in
              let db :=
                mk_database (save_cycle cycle (cycles db))
                            (save_earning earning (earnings db))
                            (expenses db) (archives db) (next_cycle_id db)
                            (next_earning_id db) (next_expense_id db)
                            (next_archive_id db) in
              let '(db, updated_state) := get_app_state now db in
              (db, (State updated_state, 200))
          end
      end
  end.

(** [DELETE /api/earnings/<earning_id>]. *)
Definition delete_earning (now : datetime) (earning_id : Z) (db : database)
  : database * response :=
  match get_active_cycle db with
  | None => (db, (Error InactiveCycle, 400))
  | Some cycle =>
      if negb (CurrentCycle.is_active cycle)
      then (db, (Error InactiveCycle, 400)) else
      match find_earning db earning_id cycle with
      | None => (db, (Error EarningNotFound, 404))
      | Some earning =>
          let amount_deleted := Earning.amount earning in
          let cycle :=
            CurrentCycle.set_cumulative_earnings
              (CurrentCycle.cumulative_earnings cycle - amount_deleted) cycle in
          let cycle :=
            CurrentCycle.set_current_period_earnings
              (CurrentCycle.current_period_earnings cycle - amount_deleted)
              cycle in
          let cycle :=
            CurrentCycle.set_cumulative_race_count
              (CurrentCycle.cumulative_race_count cycle - 1) cycle in
          let cycle :=
            CurrentCycle.set_current_period_race_count
              (CurrentCycle.current_period_race_count cycle - 1) cycle in
          let cycle :=
            CurrentCycle.set_cumulative_earnings
              (0 `max` CurrentCycle.cumulative_earnings cycle) cycle in
          let cycle :=
            CurrentCycle.set_current_period_earnings
              (0 `max` CurrentCycle.current_period_earnings cycle) cycle in
          let cycle :=
            CurrentCycle.set_cumulative_race_count
              (0 `max` CurrentCycle.cumulative_race_count cycle) cycle in
          let cycle :=
            CurrentCycle.set_current_period_race_count
              (0 `max` CurrentCycle.current_period_race_count cycle) cycle in
          let db :=
            mk_database (save_cycle cycle (cycles db))
                        (List.filter
                           (λ e, negb (Earning.id e =? Earning.id earning))
                           (earnings db))
                        (expenses db) (archives db) (next_cycle_id db)
                        (next_earning_id db) (next_expense_id db)
                        (next_archive_id db) in
          let '(db, updated_state) := get_app_state now db in
          (db, (State updated_state, 200))
      end
  end.

(** [POST /api/expenses]. *)
Definition add_expense (now : datetime) (data : option dict) (db : database)
  : database * response :=
  match get_active_cycle db with
  | None => (db, (Error NoActiveCycleForExpenses, 400))
  | Some cycle =>
      if negb (CurrentCycle.is_active cycle)
      then (db, (Error NoActiveCycleForExpenses, 400)) else
      let d := default ∅ data in
      if negb (dict_truthy data) || negb (dict_has d "category")
         || negb (dict_has d "amount")
      then (db, (Error ExpensePayloadIncomplete, 400)) else
      match py_Decimal (dict_get d "amount") with
      | Raise e => (db, (Error (InvalidData e), 400))
      | Ok amount =>
          if amount <=? 0 then (db, (Error ExpenseNotPositive, 400)) else
          match timestamp_of d now with
          | Raise e => (db, (Error (InvalidData e), 400))
          | Ok timestamp =>
              let category := dict_get d "category" in
              let new_expense :=
                Expense.mk (next_expense_id db) (CurrentCycle.id cycle)
                           timestamp category amount in
              let db :=
                mk_database (cycles db) (earnings db)
                            (expenses db ++ [new_expense]) (archives db)
                            (next_cycle_id db) (next_earning_id db)
                            (next_expense_id db + 1) (next_archive_id db) in
              let '(db, updated_state) := get_app_state now db in
              (db, (State updated_state, 201))
          end
      end
  end.

(** [DELETE /api/expenses/<expense_id>]. *)
Definition delete_expense (now : datetime) (expense_id : Z) (db : database)
  : database * response :=
  match get_active_cycle db with
  | None => (db, (Error InactiveCycle, 400))
  | Some cycle =>
      if negb (CurrentCycle.is_active cycle)
      then (db, (Error InactiveCycle, 400)) else
      match find_expense db expense_id cycle with
      | None => (db, (Error ExpenseNotFound, 404))
      | Some expense =>
          let db :=
            mk_database (cycles db) (earnings db)
                        (List.filter
                           (λ e, negb (Expense.id e =? Expense.id expense))
                           (expenses db))
                        (archives db) (next_cycle_id db) (next_earning_id db)
                        (next_expense_id db) (next_archive_id db) in
          let '(db, updated_state) := get_app_state now db in
          (db, (State updated_state, 200))
      end
  end.

(** [GET /api/archives]. *)
Definition get_archives (db : database) : database * response :=
  (db, (Archives (archives_list db), 200)).

(** The document [archive_period] archives. *)
Definition partial_document (now : datetime) (db : database)
    (cycle : CurrentCycle.t) (note : json) : Archive.document :=
  let earnings_details_list :=
    order_by Earning.timestamp (cycle_earnings db cycle) in
  let period_end_date := now in
  let expenses_list := order_by Expense.timestamp (cycle_expenses db cycle) in
  let total_other_expenses := sum_amounts expenses_list in
  let profit_snapshot := CurrentCycle.cumulative_earnings cycle
                         - CurrentCycle.gas_cost cycle - total_other_expenses in
  Archive.mk_document period_end_date period_end_date earnings_details_list
    note
    (Archive.PeriodoParcial
       (Archive.mk_partial
          (CurrentCycle.current_period_earnings cycle)
          (CurrentCycle.current_period_race_count cycle)
          (CurrentCycle.gas_cost cycle)
          profit_snapshot))
    None.

(** [POST /api/archives/period]. *)
Definition archive_period (now : datetime) (data : option dict) (db : database)
  : database * response :=
  match get_active_cycle db with
  | None => (db, (Error NoActiveCycleToArchive, 400))
  | Some cycle =>
      if negb (CurrentCycle.is_active cycle)
      then (db, (Error NoActiveCycleToArchive, 400)) else
      if (CurrentCycle.current_period_earnings cycle <=? 0)
         && (CurrentCycle.current_period_race_count cycle <=? 0)
      then (db, (Error NothingToArchive, 400)) else
      let data := default ∅ data in
      let note := default (JStr "") (data !! "note") in
      let archive_payload := partial_document now db cycle note in
      let new_archive := Archive.mk (next_archive_id db) archive_payload now in
      let cycle := CurrentCycle.set_current_period_earnings 0 cycle in
      let cycle := CurrentCycle.set_current_period_race_count 0 cycle in
      let cycle := CurrentCycle.set_cumulative_earnings 0 cycle in
      let cycle := CurrentCycle.set_cumulative_race_count 0 cycle in
      let db :=
        mk_database (save_cycle cycle (cycles db))
                    (List.filter
                       (λ e, negb (Earning.cycle_id e =? CurrentCycle.id cycle))
                       (earnings db))
                    (expenses db) (archives db ++ [new_archive])
                    (next_cycle_id db) (next_earning_id db)
                    (next_expense_id db) (next_archive_id db + 1) in
      let '(db, updated_state) := get_app_state now db in
      (db, (State updated_state, 200))
  end.

(** [DELETE /api/archives/<archive_id>]. The active cycle is not adjusted,
    whatever the type of the archive. *)
Definition delete_archive (archive_id : Z) (db : database)
  : database * response :=
  match List.find (λ a, Archive.id a =? archive_id) (archives db) with
  | None => (db, (Error ArchiveNotFound, 404))
  | Some archive =>
      let db :=
        mk_database (cycles db) (earnings db) (expenses db)
                    (List.filter
                       (λ a, negb (Archive.id a =? Archive.id archive))
                       (archives db))
                    (next_cycle_id db) (next_earning_id db)
                    (next_expense_id db) (next_archive_id db) in
      (db, (Deleted (archives_list db), 200))
  end.

(** The four [if k in data] blocks of [update_cycle_fields], each on the
    cycle object as the blocks before it left it and on the [updated]
    flag. *)
Definition patch_gas_cost (data : dict) (st : CurrentCycle.t * bool)
  : flow (CurrentCycle.t * bool) :=
  if dict_has data "gas_cost" then
    and_then (of_pyres (py_Decimal (dict_get data "gas_cost")))
      (λ g, Next (CurrentCycle.set_gas_cost g st.1, true))
  else Next st.

Definition patch_fuel_price (data : dict) (st : CurrentCycle.t * bool)
  : flow (CurrentCycle.t * bool) :=
  if dict_has data "fuel_price" then
    and_then (match dict_get data "fuel_price" with
              | JNull => Next None
              | v => of_pyres (pyres_map Some (py_Decimal v))
              end)
      (λ p, Next (CurrentCycle.set_fuel_price_per_liter p st.1, true))
  else Next st.

Definition patch_start_km (data : dict) (st : CurrentCycle.t * bool)
  : flow (CurrentCycle.t * bool) :=
  if dict_has data "start_km" then
    and_then (match dict_get data "start_km" with
              | JNull => Next None
              | v => of_pyres (pyres_map Some (py_int v))
              end)
      (λ new_start_km,
         match CurrentCycle.end_km st.1, new_start_km with
         | Some e, Some s =>
             if s >? e then Return (Error (StartKmAboveEndKm s e), 400)
             else Next (CurrentCycle.set_start_km new_start_km st.1, true)
         | _, _ => Next (CurrentCycle.set_start_km new_start_km st.1, true)
         end)
  else Next st.

Definition patch_end_km (data : dict) (st : CurrentCycle.t * bool)
  : flow (CurrentCycle.t * bool) :=
  if dict_has data "end_km" then
    and_then (match dict_get data "end_km" with
              | JNull => Next None
              | v => of_pyres (pyres_map Some (py_int v))
              end)
      (λ new_end_km,
         match CurrentCycle.start_km st.1, new_end_km with
         | Some s, Some e =>
             if e <? s then Return (Error (EndKmBelowStartKm' e s), 400)
             else Next (CurrentCycle.set_end_km new_end_km st.1, true)
         | _, _ => Next (CurrentCycle.set_end_km new_end_km st.1, true)
         end)
  else Next st.

Definition patch_fields (data : dict) (cycle : CurrentCycle.t)
  : flow (CurrentCycle.t * bool) :=
  and_then (patch_gas_cost data (cycle, false)) (λ st,
  and_then (patch_fuel_price data st) (λ st,
  and_then (patch_start_km data st) (λ st,
  patch_end_km data st))).

(** [PUT /api/cycles/current]. *)
Definition update_cycle_fields (now : datetime) (data : option dict)
    (db : database) : database * response :=
  match get_active_cycle db with
  | None => (db, (Error NoActiveCycleToUpdate, 400))
  | Some cycle =>
      if negb (CurrentCycle.is_active cycle)
      then (db, (Error NoActiveCycleToUpdate, 400)) else
      if negb (dict_truthy data) then (db, (Error InvalidPayload, 400)) else
      match patch_fields (default ∅ data) cycle with
      | Return r => (db, r)
      | Throw e => (db, (Error (InvalidData e), 400))
      | Next (cycle, updated) =>
          if updated then
            let db :=
              mk_database (save_cycle cycle (cycles db)) (earnings db)
                          (expenses db) (archives db) (next_cycle_id db)
                          (next_earning_id db) (next_expense_id db)
                          (next_archive_id db) in
            let '(db, updated_state) := get_app_state now db in
            (db, (State updated_state, 200))
          else (db, (Error NoValidField, 400))
      end
  end.

(** [POST /api/reset]. *)
Definition reset_database (now : datetime) (db : database)
  : database * response :=
  let db :=
    mk_database [] [] [] [] (next_cycle_id db) (next_earning_id db)
                (next_expense_id db) (next_archive_id db) in
  let '(db, _) := get_or_create_active_cycle now db in
  (db, (ResetDone, 200)).

(** ** The API *)

Inductive request : Type :=
  | GetState
  | StartCycle (data : option dict)
  | FinalizeCycle (data : option dict)
  | AddEarning (data : option dict)
  | EditEarning (earning_id : Z) (data : option dict)
  | DeleteEarning (earning_id : Z)
  | AddExpense (data : option dict)
  | DeleteExpense (expense_id : Z)
  | GetArchives
  | ArchivePeriod (data : option dict)
  | DeleteArchive (archive_id : Z)
  | UpdateCycleFields (data : option dict)
  | ResetDatabase.

(** The routes. *)
Definition handle (now : datetime) (req : request) (db : database)
  : database * response :=
  match req with
  | GetState => get_state now db
  | StartCycle data => start_cycle now data db
  | FinalizeCycle data => finalize_cycle now data db
  | AddEarning data => add_earning now data db
  | EditEarning earning_id data => edit_earning now earning_id data db
  | DeleteEarning earning_id => delete_earning now earning_id db
  | AddExpense data => add_expense now data db
  | DeleteExpense expense_id => delete_expense now expense_id db
  | GetArchives => get_archives db
  | ArchivePeriod data => archive_period now data db
  | DeleteArchive archive_id => delete_archive archive_id db
  | UpdateCycleFields data => update_cycle_fields now data db
  | ResetDatabase => reset_database now db
  end.

(** The store after a sequence of requests, each with the reading of the
    clock at which it is served. *)
Fixpoint serve (reqs : list (datetime * request)) (db : database) : database :=
  match reqs with
  | [] => db
  | (now, req) :: reqs => serve reqs (handle now req db).1
  end.
End Handlers.

(** ** Texts read in the examples *)

(** An instance of the conversions of text for the concrete runs below. It
    reads decimal numerals with an optional sign, with up to two digits after
    the point for a [Decimal], and timestamps of the form
    [YYYY-MM-DDTHH:MM:SS], as seconds since 1970-01-01T00:00:00. *)
Module Literals.
Definition digit (a : ascii) : option Z :=
  let n := Z.of_nat (nat_of_ascii a) in
  if (48 <=? n) && (n <=? 57) then Some (n - 48) else None.

Fixpoint numeral (acc : Z) (s : string) : option Z :=
  match s with
  | EmptyString => Some acc
  | String a s => d ← digit a; numeral (10 * acc + d) s
  end.

Definition digits (s : string) : option Z :=
  match s with
  | EmptyString => None
  | _ => numeral 0 s
  end.

Definition signed (f : string → option Z) (s : string) : option Z :=
  match s with
  | String "-" s => Z.opp <$> f s
  | String "+" s => f s
  | _ => f s
  end.

Fixpoint split_point (s : string) : string * option string :=
  match s with
  | EmptyString => (EmptyString, None)
  | String "." s => (EmptyString, Some s)
  | String a s => let '(i, f) := split_point s in (String a i, f)
  end.

Definition hundredths (s : string) : option Z :=
  let '(i, f) := split_point s in
  n ← digits i;
  match f with
  | None => Some (100 * n)
  | Some (String a EmptyString) => d ← digit a; Some (100 * n + 10 * d)
  | Some (String a (String b EmptyString)) =>
      d ← digit a; e ← digit b; Some (100 * n + 10 * d + e)
  | Some _ => None
  end.

Definition is_leap (y : Z) : bool :=
  ((y `mod` 4 =? 0) && negb (y `mod` 100 =? 0)) || (y `mod` 400 =? 0).

Definition days_in_month (y m : Z) : Z :=
  if m =? 2 then (if is_leap y then 29 else 28)
  else if (m =? 4) || (m =? 6) || (m =? 9) || (m =? 11) then 30 else 31.

(** Days from 1970-01-01 to the civil date [y]-[m]-[d]. *)
Definition days_from_civil (y m d : Z) : Z :=
  let y := if m <=? 2 then y - 1 else y in
  let era := y `div` 400 in
  let yoe := y - era * 400 in
  let doy := (153 * (if m >? 2 then m - 3 else m + 9) + 2) `div` 5 + d - 1 in
  let doe := yoe * 365 + yoe `div` 4 - yoe `div` 100 + doy in
  era * 146097 + doe - 719468.

Definition iso_seconds (s : string) : option Z :=
  if negb (String.length s =? 19)%nat then None else
  if negb (bool_decide (substring 4 1 s = "-" ∧ substring 7 1 s = "-"
                        ∧ substring 10 1 s = "T" ∧ substring 13 1 s = ":"
                        ∧ substring 16 1 s = ":")) then None else
  y ← digits (substring 0 4 s);
  m ← digits (substring 5 2 s);
  d ← digits (substring 8 2 s);
  hh ← digits (substring 11 2 s);
  mm ← digits (substring 14 2 s);
  ss ← digits (substring 17 2 s);
  if (1 <=? y) && (1 <=? m) && (m <=? 12) && (1 <=? d)
     && (d <=? days_in_month y m) && (hh <? 24) && (mm <? 60) && (ss <? 60)
  then Some (days_from_civil y m d * 86400 + hh * 3600 + mm * 60 + ss)
  else None.
End Literals.

#[export] Instance text_literals : PyText := {
  str_to_int := Literals.signed Literals.digits;
  str_to_Decimal := Literals.signed Literals.hundredths;
  str_fromisoformat := Literals.iso_seconds
}.

(** * Properties *)

(** ** Vocabulary *)

(** The rows with [is_active = true]. *)
Definition active_rows (l : list CurrentCycle.t) : list CurrentCycle.t :=
  List.filter CurrentCycle.is_active l.


(** What every reachable cycle table satisfies: the keys are below the next
    key of the sequence, no key occurs twice, and at most one row is active. *)
Record cycles_ok (l : list CurrentCycle.t) (next : Z) : Prop := mk_cycles_ok {
  ids_below : Forall (λ c, CurrentCycle.id c < next) l;
  ids_nodup : NoDup (map CurrentCycle.id l);
  one_active : (length (active_rows l) ≤ 1)%nat
}.

Definition store_ok (db : database) : Prop :=
  cycles_ok (cycles db) (next_cycle_id db).

(** Two values of the same row that differ in the columns a patch can set
    only: the key, [is_active] and the four totals agree. *)
Definition same_row (c c' : CurrentCycle.t) : Prop :=
  CurrentCycle.id c' = CurrentCycle.id c
  ∧ CurrentCycle.is_active c' = CurrentCycle.is_active c
  ∧ CurrentCycle.cumulative_earnings c' = CurrentCycle.cumulative_earnings c
  ∧ CurrentCycle.current_period_earnings c'
    = CurrentCycle.current_period_earnings c
  ∧ CurrentCycle.cumulative_race_count c' = CurrentCycle.cumulative_race_count c
  ∧ CurrentCycle.current_period_race_count c'
    = CurrentCycle.current_period_race_count c.

(** The earning requests. *)
Definition earning_request (req : request) : Prop :=
  match req with
  | AddEarning _ | EditEarning _ _ | DeleteEarning _ => True
  | _ => False
  end.

Definition race_counts_ok (c : CurrentCycle.t) : Prop :=
  0 ≤ CurrentCycle.cumulative_race_count c
  ∧ 0 ≤ CurrentCycle.current_period_race_count c.

Definition totals_ok (c : CurrentCycle.t) : Prop :=
  0 ≤ CurrentCycle.cumulative_earnings c
  ∧ 0 ≤ CurrentCycle.current_period_earnings c
  ∧ race_counts_ok c.

(** [sum(Earning.amount)] over the earnings of the cycle with key [i], the
    [total_earnings] of [calculate_and_update_cycle_totals]. *)
Definition total_earnings (l : list Earning.t) (i : Z) : Decimal :=
  foldr (λ e acc, Earning.amount e + acc) 0
        (List.filter (λ e, Earning.cycle_id e =? i) l).

(** A request that is no [add] with a negative [amount]. *)
Definition no_negative_add `{PyText} (req : request) : Prop :=
  match req with
  | AddEarning data =>
      ∀ amount, py_Decimal (dict_get (default ∅ data) "amount") = Ok amount →
                0 ≤ amount
  | _ => True
  end.

(** What the tables satisfy as long as no [add] carries a negative amount:
    the keys of the cycles and of the earnings are below the next key of
    their sequence, no earning key occurs twice, every earning belongs to a
    key of the cycle sequence and has an amount that is not negative, and
    every cycle has earned at least the sum of its earnings, with race
    counters that are not negative. *)
Record ledger_ok (db : database) : Prop := mk_ledger_ok {
  ledger_cycles : Forall (λ c, CurrentCycle.id c < next_cycle_id db) (cycles db);
  ledger_ids : Forall (λ e, Earning.id e < next_earning_id db) (earnings db);
  ledger_nodup : NoDup (map Earning.id (earnings db));
  ledger_rows :
    Forall (λ e, Earning.cycle_id e < next_cycle_id db ∧ 0 ≤ Earning.amount e)
           (earnings db);
  ledger_totals :
    Forall (λ c, total_earnings (earnings db) (CurrentCycle.id c)
                 ≤ CurrentCycle.cumulative_earnings c
                 ∧ race_counts_ok c) (cycles db)
}.


(** [end_km] is not below [start_km] where the cycle has both. *)
Definition km_ordered (c : CurrentCycle.t) : Prop :=
  match CurrentCycle.start_km c, CurrentCycle.end_km c with
  | Some s, Some e => s ≤ e
  | _, _ => True
  end.

(** What the tables satisfy after any requests: the cycle table is
    [store_ok], every earning and every expense belongs to a cycle of the
    table, no earning has a negative amount, every expense has a positive
    one, and every cycle has ordered kilometres and race counters that are
    not negative. *)
Record tables_ok (db : database) : Prop := mk_tables_ok {
  tables_store : store_ok db;
  tables_earnings :
    Forall (λ e, Earning.cycle_id e ∈ map CurrentCycle.id (cycles db)
                 ∧ 0 ≤ Earning.amount e) (earnings db);
  tables_expenses :
    Forall (λ x, Expense.cycle_id x ∈ map CurrentCycle.id (cycles db)
                 ∧ 0 < Expense.amount x) (expenses db);
  tables_cycles : Forall (λ c, km_ordered c ∧ race_counts_ok c) (cycles db)
}.

(** Every cycle has earned exactly the sum of its earnings. *)
Definition balanced (db : database) : Prop :=
  Forall (λ c, CurrentCycle.cumulative_earnings c
               = total_earnings (earnings db) (CurrentCycle.id c)) (cycles db).

(** The requests that are answered 400 when no cycle is active. *)
Definition needs_active_cycle (req : request) : Prop :=
  match req with
  | FinalizeCycle _ | AddEarning _ | EditEarning _ _ | DeleteEarning _
  | AddExpense _ | DeleteExpense _ | ArchivePeriod _ | UpdateCycleFields _ => True
  | _ => False
  end.


(** The requests of the runs, with the texts read by [text_literals]. *)
Definition start_50 : request :=
  StartCycle (Some {[ "gas_cost" := JStr "50.00" ]}).

Definition start_50_at_1000 : request :=
  StartCycle (Some (<[ "start_km" := JInt 1000 ]> {[ "gas_cost" := JInt 50 ]})).

Definition earning_of (amount new_period_total : json) : dict :=
  <[ "amount" := amount ]> {[ "new_period_total" := new_period_total ]}.

(** A store with one active cycle and no earning. *)
Definition started : database := serve [(10, start_50)] empty_database.

(** A store with one active cycle, started at kilometre 1000. *)
Definition started_at_1000 : database :=
  serve [(10, start_50_at_1000)] empty_database.

(** A store with one active cycle, one earning of 20.00 and one expense of
    10.00. *)
Definition earning_20 : database :=
  serve [(10, start_50);
         (11, AddEarning (Some (earning_of (JFloat 2000) (JFloat 2000))));
         (12, AddExpense (Some (<[ "category" := JStr "toll" ]>
                                  {[ "amount" := JInt 10 ]})))]
        empty_database.

(** ** The cycle table *)

Lemma save_cycle_ids c l : map CurrentCycle.id (save_cycle c l) = map CurrentCycle.id l.
Proof.
  induction l as [|r l IH]; simpl; [done|].
  rewrite IH. f_equal.
  destruct (Z.eqb_spec (CurrentCycle.id r) (CurrentCycle.id c)); congruence.
Qed.

Lemma save_cycle_absent c l :
  CurrentCycle.id c ∉ map CurrentCycle.id l → save_cycle c l = l.
Proof.
  induction l as [|r l IH]; simpl; [done|].
  intros Hn. apply not_elem_of_cons in Hn as [Hne Hn].
  rewrite IH by done.
  destruct (Z.eqb_spec (CurrentCycle.id r) (CurrentCycle.id c)); congruence.
Qed.

Lemma find_none_active_rows l :
  List.find CurrentCycle.is_active l = None → active_rows l = [].
Proof.
  induction l as [|r l IH]; simpl; [done|].
  destruct (CurrentCycle.is_active r); [done|]. exact IH.
Qed.

Lemma find_active_is_active l a :
  List.find CurrentCycle.is_active l = Some a → CurrentCycle.is_active a = true.
Proof. intros Hf. by apply find_some in Hf as [_ ?]. Qed.

(** Saving the changed active cycle touches its row only. *)
Lemma active_rows_save_cycle l next a c :
  cycles_ok l next →
  List.find CurrentCycle.is_active l = Some a →
  CurrentCycle.id c = CurrentCycle.id a →
  active_rows (save_cycle c l) = if CurrentCycle.is_active c then [c] else [].
Proof.
  intros [_ Hnd H1] Hf Hid. clear next.
  induction l as [|r l IH]; simpl in *; [done|].
  apply NoDup_cons in Hnd as [Hr Hnd].
  destruct (CurrentCycle.is_active r) eqn:Hact.
  - injection Hf as ->. rewrite Hid, Z.eqb_refl.
    rewrite save_cycle_absent by (by rewrite Hid).
    simpl in H1. unfold active_rows in *.
    destruct (List.filter CurrentCycle.is_active l) eqn:Hl; [|simpl in H1; lia].
    by destruct (CurrentCycle.is_active c).
  - assert (CurrentCycle.id a ∈ map CurrentCycle.id l) as Hin.
    { apply find_some in Hf as [Hin _].
      apply list_elem_of_In, in_map, Hin. }
    destruct (Z.eqb_spec (CurrentCycle.id r) (CurrentCycle.id c)) as [Heq|Hne].
    + exfalso. apply Hr. by rewrite Heq, Hid.
    + rewrite Hact. by apply IH.
Qed.

Lemma cycles_ok_save_cycle l next a c :
  cycles_ok l next →
  List.find CurrentCycle.is_active l = Some a →
  CurrentCycle.id c = CurrentCycle.id a →
  cycles_ok (save_cycle c l) next.
Proof.
  intros Hok Hf Hid. split.
  - destruct Hok as [Hb _ _].
    rewrite Forall_forall in Hb |- *. intros x Hx.
    unfold save_cycle in Hx. apply list_elem_of_fmap in Hx as (r & -> & Hr).
    apply find_some in Hf as [Ha _]. apply list_elem_of_In in Ha.
    destruct (_ =? _); [rewrite Hid|]; by apply Hb.
  - rewrite save_cycle_ids. by destruct Hok.
  - rewrite (active_rows_save_cycle l next a c) by done.
    destruct (CurrentCycle.is_active c); simpl; lia.
Qed.

Lemma cycles_ok_insert l next c :
  cycles_ok l next →
  CurrentCycle.id c = next →
  (CurrentCycle.is_active c = true → active_rows l = []) →
  cycles_ok (l ++ [c]) (next + 1).
Proof.
  intros [Hb Hnd H1] Hid Hact. split.
  - apply Forall_app. split.
    + eapply Forall_impl; [exact Hb|]. simpl. lia.
    + apply Forall_singleton. lia.
  - rewrite map_app. apply NoDup_app. split_and!; [done| |].
    + intros x Hx. simpl. rewrite list_elem_of_singleton. intros ->.
      apply list_elem_of_fmap in Hx as (r & Hr & Hin).
      rewrite Forall_forall in Hb. specialize (Hb _ Hin). simpl in Hb. lia.
    + simpl. apply NoDup_singleton.
  - unfold active_rows in *. rewrite List.filter_app, length_app. simpl.
    destruct (CurrentCycle.is_active c); simpl; [rewrite Hact by done; simpl|]; lia.
Qed.

(** Case analysis on every test of a handler, up to its final reading of the
    state. *)
Ltac handler_cases :=
  repeat match goal with
         | |- context [match ?x with _ => _ end] =>
             lazymatch x with
             | get_app_state _ _ => fail
             | _ => destruct x eqn:?
             end
         end.

Section Invariant.
Context `{PyText}.

Lemma get_active_cycle_is_active db c :
  get_active_cycle db = Some c → CurrentCycle.is_active c = true.
Proof. apply find_active_is_active. Qed.

Lemma get_or_create_active_cycle_ok now db :
  store_ok db → store_ok (get_or_create_active_cycle now db).1.
Proof.
  intros Hok. unfold get_or_create_active_cycle.
  destruct (get_active_cycle db) eqn:Hf; [done|].
  unfold store_ok. simpl. by apply cycles_ok_insert.
Qed.

Lemma get_app_state_fst now db :
  (get_app_state now db).1 = (get_or_create_active_cycle now db).1.
Proof. unfold get_app_state. by destruct (get_or_create_active_cycle now db). Qed.

Lemma get_app_state_ok now db :
  store_ok db → store_ok (get_app_state now db).1.
Proof. rewrite get_app_state_fst. apply get_or_create_active_cycle_ok. Qed.

(** A handler that commits and then reads the state back. *)
Lemma respond_with_state_fst now db (k : app_state → response) :
  (let '(db, st) := get_app_state now db in (db, k st)).1
  = (get_app_state now db).1.
Proof. by destruct (get_app_state now db). Qed.

Lemma store_ok_tables db db' :
  store_ok db →
  cycles db' = cycles db →
  next_cycle_id db' = next_cycle_id db →
  store_ok db'.
Proof. unfold store_ok. by intros ? -> ->. Qed.

Lemma store_ok_save_cycle db a c e x ar ne nx na :
  store_ok db →
  get_active_cycle db = Some a →
  CurrentCycle.id c = CurrentCycle.id a →
  store_ok (mk_database (save_cycle c (cycles db)) e x ar
                        (next_cycle_id db) ne nx na).
Proof. intros. unfold store_ok. simpl. by eapply cycles_ok_save_cycle. Qed.

Lemma of_pyres_next {A} (r : pyres A) a : of_pyres r = Next a → r = Ok a.
Proof. destruct r; simpl; congruence. Qed.

Lemma and_then_next {A B} (m : flow A) (k : A → flow B) b :
  and_then m k = Next b → ∃ a, m = Next a ∧ k a = Next b.
Proof. destruct m; simpl; [eauto|done..]. Qed.

Lemma patch_gas_cost_same data st st' :
  patch_gas_cost data st = Next st' → same_row st.1 st'.1.
Proof.
  unfold patch_gas_cost. destruct (dict_has _ _).
  - intros (g & _ & [= <-])%and_then_next. done.
  - intros [= <-]. done.
Qed.

Lemma patch_fuel_price_same data st st' :
  patch_fuel_price data st = Next st' → same_row st.1 st'.1.
Proof.
  unfold patch_fuel_price. destruct (dict_has _ _).
  - intros (g & _ & [= <-])%and_then_next. done.
  - intros [= <-]. done.
Qed.

Lemma patch_start_km_same data st st' :
  patch_start_km data st = Next st' → same_row st.1 st'.1.
Proof.
  unfold patch_start_km. destruct (dict_has _ _).
  - intros (g & _ & Hk)%and_then_next.
    destruct (CurrentCycle.end_km st.1), g; try destruct (_ >? _);
      by simplify_eq.
  - intros [= <-]. done.
Qed.

Lemma patch_end_km_same data st st' :
  patch_end_km data st = Next st' → same_row st.1 st'.1.
Proof.
  unfold patch_end_km. destruct (dict_has _ _).
  - intros (g & _ & Hk)%and_then_next.
    destruct (CurrentCycle.start_km st.1), g; try destruct (_ <? _);
      by simplify_eq.
  - intros [= <-]. done.
Qed.

Lemma patch_fields_same data c st :
  patch_fields data c = Next st → same_row c st.1.
Proof.
  unfold patch_fields.
  intros (s1 & H1 & (s2 & H2 & (s3 & H3 & H4)%and_then_next)%and_then_next)%and_then_next.
  apply patch_gas_cost_same in H1. apply patch_fuel_price_same in H2.
  apply patch_start_km_same in H3. apply patch_end_km_same in H4.
  unfold same_row in *. simpl in *. destruct_and!. split_and!; congruence.
Qed.

Ltac committed :=
  try done;
  rewrite ?respond_with_state_fst;
  try apply get_app_state_ok;
  try (eapply store_ok_save_cycle; [done|eassumption|done]);
  try (eapply store_ok_tables; [eassumption|done|done]).

Lemma start_cycle_ok now data db :
  store_ok db → store_ok (start_cycle now data db).1.
Proof.
  intros Hok. unfold start_cycle.
  destruct (negb (dict_truthy data)); [done|].
  destruct (match dict_get _ "gas_cost" with JNull => _ | _ => _ end)
    as [gas_cost|[]]; try done.
  destruct (gas_cost <=? 0); [done|].
  destruct (if truthy _ then _ else _) as [start_km|]; [|done].
  destruct (if truthy _ then _ else _) as [fuel_price|]; [|done].
  unfold store_ok. simpl.
  destruct (get_active_cycle db) as [a|] eqn:Hf.
  - apply cycles_ok_insert; [by eapply cycles_ok_save_cycle|done|].
    intros _. by rewrite (active_rows_save_cycle _ _ a _ Hok Hf).
  - apply cycles_ok_insert; [done..|].
    intros _. by apply find_none_active_rows.
Qed.

Lemma finalize_cycle_ok now data db :
  store_ok db → store_ok (finalize_cycle now data db).1.
Proof.
  intros Hok. unfold finalize_cycle, archive_and_deactivate.
  handler_cases; committed.
Qed.

Lemma add_earning_ok now data db :
  store_ok db → store_ok (add_earning now data db).1.
Proof.
  intros Hok. unfold add_earning. handler_cases; committed.
Qed.

Lemma edit_earning_ok now earning_id data db :
  store_ok db → store_ok (edit_earning now earning_id data db).1.
Proof.
  intros Hok. unfold edit_earning. handler_cases; committed.
Qed.

Lemma delete_earning_ok now earning_id db :
  store_ok db → store_ok (delete_earning now earning_id db).1.
Proof.
  intros Hok. unfold delete_earning. handler_cases; committed.
Qed.

Lemma add_expense_ok now data db :
  store_ok db → store_ok (add_expense now data db).1.
Proof.
  intros Hok. unfold add_expense. handler_cases; committed.
Qed.

Lemma delete_expense_ok now expense_id db :
  store_ok db → store_ok (delete_expense now expense_id db).1.
Proof.
  intros Hok. unfold delete_expense. handler_cases; committed.
Qed.

Lemma archive_period_ok now data db :
  store_ok db → store_ok (archive_period now data db).1.
Proof.
  intros Hok. unfold archive_period. handler_cases; committed.
Qed.

Lemma delete_archive_ok archive_id db :
  store_ok db → store_ok (delete_archive archive_id db).1.
Proof.
  intros Hok. unfold delete_archive. handler_cases; committed.
Qed.

Lemma update_cycle_fields_ok now data db :
  store_ok db → store_ok (update_cycle_fields now data db).1.
Proof.
  intros Hok. unfold update_cycle_fields.
  destruct (get_active_cycle db) as [a|] eqn:Hf; [|done].
  destruct (negb (CurrentCycle.is_active a)); [done|].
  destruct (negb (dict_truthy data)); [done|].
  destruct (patch_fields _ a) as [[c updated]| |] eqn:Hp; try done.
  destruct updated; [|done].
  rewrite respond_with_state_fst. apply get_app_state_ok.
  eapply store_ok_save_cycle; [done..|].
  by apply patch_fields_same in Hp as [? _].
Qed.

Lemma reset_database_ok now db :
  store_ok db → store_ok (reset_database now db).1.
Proof.
  intros [Hb Hnd H1]. unfold reset_database, get_or_create_active_cycle.
  simpl. unfold store_ok. simpl.
  apply (cycles_ok_insert [] (next_cycle_id db)); [|done..].
  split; [constructor|constructor|simpl; lia].
Qed.

Lemma handle_ok now req db : store_ok db → store_ok (handle now req db).1.
Proof.
  intros Hok. destruct req; simpl.
  - unfold get_state. rewrite respond_with_state_fst. by apply get_app_state_ok.
  - by apply start_cycle_ok.
  - by apply finalize_cycle_ok.
  - by apply add_earning_ok.
  - by apply edit_earning_ok.
  - by apply delete_earning_ok.
  - by apply add_expense_ok.
  - by apply delete_expense_ok.
  - done.
  - by apply archive_period_ok.
  - by apply delete_archive_ok.
  - by apply update_cycle_fields_ok.
  - by apply reset_database_ok.
Qed.

Lemma empty_database_ok : store_ok empty_database.
Proof. split; [constructor|constructor|simpl; lia]. Qed.

Lemma serve_ok reqs db : store_ok db → store_ok (serve reqs db).
Proof.
  revert db. induction reqs as [|[now req] reqs IH]; intros db Hok; simpl.
  - done.
  - by apply IH, handle_ok.
Qed.
End Invariant.

(** ** Reading the active cycle back *)

(** After the changed active cycle is saved, still active, it is the active
    cycle that the next query finds. *)
Lemma find_save_cycle l a c :
  List.find CurrentCycle.is_active l = Some a →
  CurrentCycle.id c = CurrentCycle.id a →
  CurrentCycle.is_active c = true →
  List.find CurrentCycle.is_active (save_cycle c l) = Some c.
Proof.
  intros Hf Hid Hact. induction l as [|r l IH]; simpl in *; [done|].
  destruct (CurrentCycle.is_active r) eqn:Hr.
  - injection Hf as ->. by rewrite Hid, Z.eqb_refl, Hact.
  - destruct (CurrentCycle.id r =? CurrentCycle.id c).
    + by rewrite Hact.
    + rewrite Hr. by apply IH.
Qed.

Lemma get_active_cycle_elem_of db c : get_active_cycle db = Some c → c ∈ cycles db.
Proof. intros Hf. by apply find_some in Hf as [?%list_elem_of_In _]. Qed.

Lemma get_or_create_active_cycle_found now db c :
  get_active_cycle db = Some c → get_or_create_active_cycle now db = (db, c).
Proof. unfold get_or_create_active_cycle. by intros ->. Qed.

Lemma get_app_state_found now db c :
  get_active_cycle db = Some c →
  get_app_state now db
  = (db, mk_app_state (Some c)
           (order_by Earning.timestamp (cycle_earnings db c))
           (order_by Expense.timestamp (cycle_expenses db c))
           (archives_list db)).
Proof.
  intros Hf. unfold get_app_state.
  by rewrite (get_or_create_active_cycle_found now db c Hf).
Qed.

(** [order_by] rearranges the rows and keeps every one of them. *)
Lemma insert_by_Permutation {A} (key : A → Z) x l : insert_by key x l ≡ₚ x :: l.
Proof.
  induction l as [|y l IH]; simpl; [done|].
  destruct (key x <=? key y); [done|].
  rewrite IH. apply Permutation_swap.
Qed.

Lemma order_by_Permutation {A} (key : A → Z) l : order_by key l ≡ₚ l.
Proof.
  induction l as [|x l IH]; simpl; [done|].
  rewrite insert_by_Permutation. by rewrite IH.
Qed.

Lemma dict_truthy_lookup (d : dict) k v : d !! k = Some v → dict_truthy (Some d) = true.
Proof.
  intros Hk. simpl. rewrite bool_decide_false; [done|].
  intros ->. by rewrite lookup_empty in Hk.
Qed.

Lemma dict_has_lookup (d : dict) k v : d !! k = Some v → dict_has d k = true.
Proof. intros Hk. unfold dict_has. rewrite bool_decide_true; [done|]. by exists v. Qed.

Lemma dict_get_lookup (d : dict) k v : d !! k = Some v → dict_get d k = v.
Proof. intros Hk. unfold dict_get. by rewrite Hk. Qed.

(** ** The single active cycle *)

Section ActiveCycle.
Context `{PyText}.



(** C9. [GET /api/state] writes: whenever no [Cycle] row is active, whatever
    inactive rows the table holds, the request appends a new inactive
    [Cycle] row with zeroed totals, commits it, and returns it as the
    current cycle of the state. *)
Theorem get_state_inserts_inactive_cycle now db :
  get_active_cycle db = None →
  let cycle := CurrentCycle.inactive (next_cycle_id db) now in
  let db' := (get_state now db).1 in
  cycles db' = cycles db ++ [cycle]
  ∧ next_cycle_id db' = next_cycle_id db + 1
  ∧ earnings db' = earnings db ∧ expenses db' = expenses db
  ∧ archives db' = archives db
  ∧ CurrentCycle.is_active cycle = false
  ∧ CurrentCycle.cumulative_earnings cycle = 0
  ∧ CurrentCycle.cumulative_race_count cycle = 0
  ∧ CurrentCycle.current_period_earnings cycle = 0
  ∧ CurrentCycle.current_period_race_count cycle = 0
  ∧ ∃ st, (get_state now db).2 = (State st, 200)
          ∧ currentCycle st = Some cycle.
Proof.
  intros Hf. unfold get_state, get_app_state, get_or_create_active_cycle.
  rewrite Hf. simpl. split_and!; try done. by eexists.
Qed.

End ActiveCycle.

(** ** The earnings of a cycle and its cumulative total *)

Lemma total_earnings_cons e l i :
  total_earnings (e :: l) i
  = (if Earning.cycle_id e =? i then Earning.amount e else 0)
    + total_earnings l i.
Proof.
  unfold total_earnings. simpl.
  destruct (Earning.cycle_id e =? i); simpl; lia.
Qed.

Lemma total_earnings_nonneg l i :
  Forall (λ e, 0 ≤ Earning.amount e) l → 0 ≤ total_earnings l i.
Proof.
  induction 1 as [|e l He _ IH]; [done|].
  rewrite total_earnings_cons. destruct (Earning.cycle_id e =? i); lia.
Qed.

Lemma total_earnings_app l e i :
  total_earnings (l ++ [e]) i
  = total_earnings l i
    + (if Earning.cycle_id e =? i then Earning.amount e else 0).
Proof.
  induction l as [|r l IH]; simpl.
  - rewrite total_earnings_cons. unfold total_earnings. simpl. lia.
  - rewrite !total_earnings_cons, IH. lia.
Qed.

Lemma save_earning_ids e l :
  map Earning.id (save_earning e l) = map Earning.id l.
Proof.
  induction l as [|r l IH]; simpl; [done|].
  rewrite IH. f_equal.
  destruct (Z.eqb_spec (Earning.id r) (Earning.id e)); congruence.
Qed.

Lemma save_earning_absent e l :
  Earning.id e ∉ map Earning.id l → save_earning e l = l.
Proof.
  induction l as [|r l IH]; simpl; [done|].
  intros Hn. apply not_elem_of_cons in Hn as [Hne Hn].
  rewrite IH by done.
  destruct (Z.eqb_spec (Earning.id r) (Earning.id e)); congruence.
Qed.

(** An edit moves the total of the cycle of the earning by the difference of
    the amounts, and no other total. *)
Lemma total_earnings_save_earning x e l i :
  NoDup (map Earning.id l) →
  e ∈ l →
  total_earnings (save_earning (Earning.set_amount x e) l) i
  = total_earnings l i
    + (if Earning.cycle_id e =? i then x - Earning.amount e else 0).
Proof.
  intros Hnd Hin. induction l as [|r l IH]; [by apply elem_of_nil in Hin|].
  simpl in Hnd. apply NoDup_cons in Hnd as [Hr Hnd].
  simpl. rewrite !total_earnings_cons.
  apply elem_of_cons in Hin as [<-|Hin].
  - simpl. rewrite Z.eqb_refl. simpl.
    rewrite save_earning_absent by done.
    destruct (Earning.cycle_id e =? i); lia.
  - destruct (Z.eqb_spec (Earning.id r) (Earning.id e)) as [Heq|Hne].
    + exfalso. apply Hr. rewrite Heq. by apply list_elem_of_fmap_2.
    + simpl. destruct (Z.eqb_spec (Earning.id r) (Earning.id e)); [done|].
      rewrite IH by done. lia.
Qed.

(** A delete lowers the total of the cycle of the earning by its amount at
    least, and raises no total. *)
Lemma total_earnings_delete e l i :
  Forall (λ r, 0 ≤ Earning.amount r) l →
  e ∈ l →
  total_earnings
    (List.filter (λ r, negb (Earning.id r =? Earning.id e)) l) i
  ≤ total_earnings l i
    - (if Earning.cycle_id e =? i then Earning.amount e else 0).
Proof.
  intros Hall Hin.
  assert (∀ l, Forall (λ r, 0 ≤ Earning.amount r) l →
               total_earnings
                 (List.filter (λ r, negb (Earning.id r =? Earning.id e)) l) i
               ≤ total_earnings l i) as Hle.
  { clear. induction 1 as [|r l Hr _ IH]; [done|]. simpl.
    destruct (Earning.id r =? Earning.id e); simpl;
      rewrite ?total_earnings_cons; destruct (Earning.cycle_id r =? i); lia. }
  induction Hall as [|r l Hr Hall IH]; [by apply elem_of_nil in Hin|].
  apply elem_of_cons in Hin as [<-|Hin].
  - simpl. rewrite Z.eqb_refl. simpl. rewrite total_earnings_cons.
    specialize (Hle l Hall). lia.
  - simpl. specialize (IH Hin).
    destruct (Earning.id r =? Earning.id e); simpl;
      rewrite ?total_earnings_cons; destruct (Earning.cycle_id r =? i); lia.
Qed.

(** Deleting the earnings of one cycle empties its total and leaves the
    others. *)
Lemma total_earnings_delete_cycle j l i :
  total_earnings (List.filter (λ r, negb (Earning.cycle_id r =? j)) l) i
  = if i =? j then 0 else total_earnings l i.
Proof.
  induction l as [|r l IH]; simpl.
  - by destruct (i =? j).
  - rewrite total_earnings_cons.
    destruct (Z.eqb_spec (Earning.cycle_id r) j) as [Hj|Hj]; simpl;
      rewrite ?total_earnings_cons, IH;
      destruct (Z.eqb_spec i j) as [Hij|Hij];
      destruct (Z.eqb_spec (Earning.cycle_id r) i); lia.
Qed.

Lemma NoDup_ids_filter (f : Earning.t → bool) l :
  NoDup (map Earning.id l) → NoDup (map Earning.id (List.filter f l)).
Proof.
  induction l as [|r l IH]; simpl; [done|].
  intros [Hr Hnd]%NoDup_cons. destruct (f r); simpl; [|by apply IH].
  apply NoDup_cons. split; [|by apply IH].
  intros Hin. apply list_elem_of_fmap in Hin as (x & Hx & Hin). apply Hr.
  apply list_elem_of_In, filter_In in Hin as [Hin _].
  rewrite Hx. apply list_elem_of_fmap_2. by apply list_elem_of_In.
Qed.

Lemma Forall_filter_list {A} (P : A → Prop) (f : A → bool) l :
  Forall P l → Forall P (List.filter f l).
Proof.
  induction 1 as [|x l Hx _ IH]; simpl; [done|].
  destruct (f x); [by constructor|done].
Qed.

Lemma total_earnings_fresh l n :
  Forall (λ e, Earning.cycle_id e < n) l → total_earnings l n = 0.
Proof.
  induction 1 as [|e l He _ IH]; [done|].
  rewrite total_earnings_cons, IH.
  destruct (Z.eqb_spec (Earning.cycle_id e) n); lia.
Qed.

Lemma ledger_ok_nonneg db :
  ledger_ok db →
  Forall (λ c, 0 ≤ CurrentCycle.cumulative_earnings c
               ∧ 0 ≤ CurrentCycle.cumulative_race_count c
               ∧ 0 ≤ CurrentCycle.current_period_race_count c) (cycles db).
Proof.
  intros [_ _ _ Hrows Htot]. eapply Forall_impl; [exact Htot|].
  intros c [Hle [Hc Hp]]. simpl in *. split_and!; [|done..].
  pose proof (total_earnings_nonneg (earnings db) (CurrentCycle.id c)) as H0.
  etrans; [apply H0|exact Hle].
  eapply Forall_impl; [exact Hrows|]. by intros e [_ ?].
Qed.

(** The changed cycle [c] is saved together with a changed earnings table. *)
Lemma ledger_commit db db' c :
  ledger_ok db →
  cycles db' = save_cycle c (cycles db) →
  next_cycle_id db' = next_cycle_id db →
  race_counts_ok c →
  Forall (λ e, Earning.id e < next_earning_id db') (earnings db') →
  NoDup (map Earning.id (earnings db')) →
  Forall (λ e, Earning.cycle_id e < next_cycle_id db ∧ 0 ≤ Earning.amount e)
         (earnings db') →
  total_earnings (earnings db') (CurrentCycle.id c)
  ≤ CurrentCycle.cumulative_earnings c →
  (∀ i, i ≠ CurrentCycle.id c →
        total_earnings (earnings db') i ≤ total_earnings (earnings db) i) →
  ledger_ok db'.
Proof.
  intros [Hcyc Hids Hnd Hrows Htot] Hc Hn Hcnt Hids' Hnd' Hrows' Hsum Hother.
  split; rewrite ?Hc, ?Hn; try done.
  - unfold save_cycle. rewrite Forall_fmap.
    eapply Forall_impl; [exact Hcyc|]. intros r Hr. simpl in *.
    destruct (Z.eqb_spec (CurrentCycle.id r) (CurrentCycle.id c)); [lia|done].
  - unfold save_cycle. rewrite Forall_fmap.
    eapply Forall_impl; [exact Htot|]. intros r [Hr1 Hr2]. simpl in *.
    destruct (Z.eqb_spec (CurrentCycle.id r) (CurrentCycle.id c)) as [Heq|Hne].
    + done.
    + split; [|done]. etrans; [by apply Hother|done].
Qed.

(** Only the other tables change. *)
Lemma ledger_tables db db' :
  ledger_ok db →
  cycles db' = cycles db → earnings db' = earnings db →
  next_cycle_id db' = next_cycle_id db →
  next_earning_id db' = next_earning_id db →
  ledger_ok db'.
Proof. intros [? ? ? ? ?] Hc He Hnc Hne. split; by rewrite ?Hc, ?He, ?Hnc, ?Hne. Qed.

(** A new cycle that has earned nothing is inserted under the next key. *)
Lemma ledger_insert db db' c :
  ledger_ok db →
  cycles db' = cycles db ++ [c] → earnings db' = earnings db →
  next_cycle_id db' = next_cycle_id db + 1 →
  next_earning_id db' = next_earning_id db →
  CurrentCycle.id c = next_cycle_id db →
  0 ≤ CurrentCycle.cumulative_earnings c →
  race_counts_ok c →
  ledger_ok db'.
Proof.
  intros [Hcyc Hids Hnd Hrows Htot] Hc He Hnc Hne Hid Hcum Hcnt.
  split; rewrite ?Hc, ?He, ?Hnc, ?Hne; try done.
  - apply Forall_app. split; [|apply Forall_singleton; lia].
    eapply Forall_impl; [exact Hcyc|]. simpl. lia.
  - eapply Forall_impl; [exact Hrows|]. simpl. lia.
  - apply Forall_app. split; [done|]. apply Forall_singleton. split; [|done].
    rewrite Hid, total_earnings_fresh; [done|].
    eapply Forall_impl; [exact Hrows|]. by intros e [? _].
Qed.

Lemma ledger_active db a :
  ledger_ok db →
  get_active_cycle db = Some a →
  CurrentCycle.id a < next_cycle_id db
  ∧ total_earnings (earnings db) (CurrentCycle.id a)
    ≤ CurrentCycle.cumulative_earnings a
  ∧ race_counts_ok a.
Proof.
  intros [Hcyc _ _ _ Htot] Hf. apply get_active_cycle_elem_of in Hf.
  rewrite Forall_forall in Hcyc, Htot.
  specialize (Hcyc a Hf). specialize (Htot a Hf). simpl in *. by destruct Htot.
Qed.

Lemma get_or_create_active_cycle_ledger now db :
  ledger_ok db → ledger_ok (get_or_create_active_cycle now db).1.
Proof.
  intros Hok. unfold get_or_create_active_cycle.
  destruct (get_active_cycle db); [done|]. simpl.
  by eapply (ledger_insert db _ (CurrentCycle.inactive (next_cycle_id db) now)).
Qed.

Lemma get_app_state_ledger now db :
  ledger_ok db → ledger_ok (get_app_state now db).1.
Proof. rewrite get_app_state_fst. apply get_or_create_active_cycle_ledger. Qed.

Lemma empty_database_ledger : ledger_ok empty_database.
Proof. split; simpl; constructor. Qed.

(** The changed active cycle is saved with its totals as they were, and the
    earnings are not touched. *)
Lemma ledger_commit_same db db' a c :
  ledger_ok db →
  get_active_cycle db = Some a →
  cycles db' = save_cycle c (cycles db) →
  earnings db' = earnings db →
  next_cycle_id db' = next_cycle_id db →
  next_earning_id db' = next_earning_id db →
  CurrentCycle.id c = CurrentCycle.id a →
  CurrentCycle.cumulative_earnings c = CurrentCycle.cumulative_earnings a →
  CurrentCycle.cumulative_race_count c = CurrentCycle.cumulative_race_count a →
  CurrentCycle.current_period_race_count c
  = CurrentCycle.current_period_race_count a →
  ledger_ok db'.
Proof.
  intros Hok Hf Hc He Hnc Hne Hid Hcum Hcrc Hcprc.
  destruct (ledger_active db a Hok Hf) as (_ & Hsum & [Hc1 Hc2]).
  pose proof Hok as [_ Hids Hnd Hrows _].
  apply (ledger_commit db db' c); rewrite ?He, ?Hne, ?Hid, ?Hcum; try done.
  split; lia.
Qed.

Lemma Forall_save_earning (P : Earning.t → Prop) e l :
  Forall P l → P e → Forall P (save_earning e l).
Proof.
  intros Hl He. unfold save_earning. rewrite Forall_fmap.
  eapply Forall_impl; [exact Hl|]. intros r Hr. simpl.
  by destruct (Earning.id r =? Earning.id e).
Qed.

Lemma find_earning_found db earning_id c e :
  find_earning db earning_id c = Some e →
  e ∈ earnings db ∧ Earning.id e = earning_id
  ∧ Earning.cycle_id e = CurrentCycle.id c.
Proof.
  intros [Hin Hc]%find_some.
  apply andb_true_iff in Hc as [?%Z.eqb_eq ?%Z.eqb_eq].
  by apply list_elem_of_In in Hin.
Qed.

Section Ledger.
Context `{PyText}.

Lemma start_cycle_ledger now data db :
  ledger_ok db → ledger_ok (start_cycle now data db).1.
Proof.
  intros Hok. unfold start_cycle.
  destruct (negb (dict_truthy data)); [done|].
  destruct (match dict_get _ "gas_cost" with JNull => _ | _ => _ end)
    as [gas_cost|[]]; try done.
  destruct (gas_cost <=? 0); [done|].
  destruct (if truthy _ then _ else _) as [start_km|]; [|done].
  destruct (if truthy _ then _ else _) as [fuel_price|]; [|done].
  simpl.
  match goal with
  | |- ledger_ok (mk_database (?l ++ [?c]) _ _ _ _ _ _ _) =>
      apply (ledger_insert
               (mk_database l (earnings db) (expenses db) (archives db)
                            (next_cycle_id db) (next_earning_id db)
                            (next_expense_id db) (next_archive_id db)) _ c);
      try done
  end.
  destruct (get_active_cycle db) as [a|] eqn:Hf.
  - by eapply (ledger_commit_same db _ a).
  - by eapply (ledger_tables db).
Qed.

Lemma finalize_cycle_ledger now data db :
  ledger_ok db → ledger_ok (finalize_cycle now data db).1.
Proof.
  intros Hok. unfold finalize_cycle, archive_and_deactivate.
  destruct (get_active_cycle db) as [a|] eqn:Hf; [|done].
  handler_cases; try done.
  all: rewrite respond_with_state_fst; apply get_app_state_ledger.
  all: by eapply (ledger_commit_same db _ a).
Qed.

Lemma add_earning_ledger now data db :
  no_negative_add (AddEarning data) →
  ledger_ok db → ledger_ok (add_earning now data db).1.
Proof.
  intros Hnn Hok. simpl in Hnn. unfold add_earning.
  destruct (get_active_cycle db) as [a|] eqn:Hf; [|done].
  destruct (negb (CurrentCycle.is_active a)); [done|].
  destruct (_ || _); [done|].
  destruct (py_Decimal (dict_get (default ∅ data) "amount"))
    as [amount|] eqn:Ha; [|done].
  specialize (Hnn amount eq_refl). clear Ha.
  destruct (py_Decimal _) as [new_period_total|]; [|done].
  destruct (timestamp_of _ _) as [timestamp|]; [|done].
  destruct (Z.ltb_spec amount 0); [lia|].
  rewrite respond_with_state_fst. apply get_app_state_ledger.
  destruct (ledger_active db a Hok Hf) as (Hid & Hsum & [Hc1 Hc2]).
  pose proof Hok as [_ Hids Hnd Hrows _].
  assert (Forall (λ e, Earning.id e < next_earning_id db + 1)
                 (earnings db
                  ++ [Earning.mk (next_earning_id db) (CurrentCycle.id a)
                                 timestamp amount])) as Hids'.
  { apply Forall_app. split; [|apply Forall_singleton; simpl; lia].
    eapply Forall_impl; [exact Hids|]. simpl. lia. }
  assert (NoDup (map Earning.id
                   (earnings db
                    ++ [Earning.mk (next_earning_id db) (CurrentCycle.id a)
                                   timestamp amount]))) as Hnd'.
  { rewrite map_app. apply NoDup_app. split_and!; [done| |apply NoDup_singleton].
    intros x Hx. simpl. rewrite list_elem_of_singleton. intros ->.
    apply list_elem_of_fmap in Hx as (r & Hr & Hin).
    rewrite Forall_forall in Hids. specialize (Hids _ Hin). simpl in Hids. lia. }
  destruct (amount >? 0).
  all: match goal with
       | |- ledger_ok (mk_database (save_cycle ?c _) _ _ _ _ _ _ _) =>
           apply (ledger_commit db _ c Hok); simpl
       end.
  all: try done.
  all: try (split; simpl; lia).
  all: try (apply Forall_app; split; [done|]; by apply Forall_singleton).
  all: try (rewrite total_earnings_app; simpl; rewrite Z.eqb_refl; lia).
  all: intros i Hi; rewrite total_earnings_app; simpl.
  all: destruct (Z.eqb_spec (CurrentCycle.id a) i); [congruence|lia].
Qed.

Lemma edit_earning_ledger now earning_id data db :
  ledger_ok db → ledger_ok (edit_earning now earning_id data db).1.
Proof.
  intros Hok. unfold edit_earning.
  destruct (get_active_cycle db) as [a|] eqn:Hf; [|done].
  destruct (negb (CurrentCycle.is_active a)); [done|].
  destruct (find_earning db earning_id a) as [e|] eqn:He; [|done].
  destruct (_ || _); [done|].
  destruct (py_Decimal _) as [new_amount|[]]; try done.
  destruct (Z.ltb_spec new_amount 0); [done|].
  rewrite respond_with_state_fst. apply get_app_state_ledger.
  destruct (ledger_active db a Hok Hf) as (Hid & Hsum & [Hc1 Hc2]).
  destruct (find_earning_found db earning_id a e He) as (Hin & _ & Hcid).
  pose proof Hok as [_ Hids Hnd Hrows _].
  assert (Earning.id e < next_earning_id db) as Hide.
  { rewrite Forall_forall in Hids. by apply Hids. }
  match goal with
  | |- ledger_ok (mk_database (save_cycle ?c _) _ _ _ _ _ _ _) =>
      apply (ledger_commit db _ c Hok); simpl
  end.
  - done.
  - done.
  - by split.
  - by apply Forall_save_earning.
  - by rewrite save_earning_ids.
  - apply Forall_save_earning; [done|]. simpl. split; [lia|done].
  - rewrite total_earnings_save_earning by done.
    rewrite Hcid, Z.eqb_refl. lia.
  - intros i Hi. rewrite total_earnings_save_earning by done.
    rewrite Hcid. destruct (Z.eqb_spec (CurrentCycle.id a) i); [congruence|lia].
Qed.

Lemma delete_earning_ledger now earning_id db :
  ledger_ok db → ledger_ok (delete_earning now earning_id db).1.
Proof.
  intros Hok. unfold delete_earning.
  destruct (get_active_cycle db) as [a|] eqn:Hf; [|done].
  destruct (negb (CurrentCycle.is_active a)); [done|].
  destruct (find_earning db earning_id a) as [e|] eqn:He; [|done].
  rewrite respond_with_state_fst. apply get_app_state_ledger.
  destruct (ledger_active db a Hok Hf) as (Hid & Hsum & [Hc1 Hc2]).
  destruct (find_earning_found db earning_id a e He) as (Hin & _ & Hcid).
  pose proof Hok as [_ Hids Hnd Hrows _].
  assert (Forall (λ r, 0 ≤ Earning.amount r) (earnings db)) as Hamounts.
  { eapply Forall_impl; [exact Hrows|]. by intros r [_ ?]. }
  pose proof (total_earnings_delete e (earnings db)) as Hdel.
  match goal with
  | |- ledger_ok (mk_database (save_cycle ?c _) _ _ _ _ _ _ _) =>
      apply (ledger_commit db _ c Hok); simpl
  end.
  - done.
  - done.
  - unfold race_counts_ok. simpl. lia.
  - by apply Forall_filter_list.
  - by apply NoDup_ids_filter.
  - by apply Forall_filter_list.
  - specialize (Hdel (CurrentCycle.id a) Hamounts Hin).
    rewrite Hcid, Z.eqb_refl in Hdel. lia.
  - intros i Hi. specialize (Hdel i Hamounts Hin).
    rewrite Hcid in Hdel.
    destruct (Z.eqb_spec (CurrentCycle.id a) i); [congruence|lia].
Qed.

Lemma add_expense_ledger now data db :
  ledger_ok db → ledger_ok (add_expense now data db).1.
Proof.
  intros Hok. unfold add_expense. handler_cases; try done.
  all: rewrite respond_with_state_fst; apply get_app_state_ledger.
  all: by eapply (ledger_tables db).
Qed.

Lemma delete_expense_ledger now expense_id db :
  ledger_ok db → ledger_ok (delete_expense now expense_id db).1.
Proof.
  intros Hok. unfold delete_expense. handler_cases; try done.
  all: rewrite respond_with_state_fst; apply get_app_state_ledger.
  all: by eapply (ledger_tables db).
Qed.

Lemma archive_period_ledger now data db :
  ledger_ok db → ledger_ok (archive_period now data db).1.
Proof.
  intros Hok. unfold archive_period.
  destruct (get_active_cycle db) as [a|] eqn:Hf; [|done].
  destruct (negb (CurrentCycle.is_active a)); [done|].
  destruct (_ && _); [done|].
  rewrite respond_with_state_fst. apply get_app_state_ledger.
  pose proof Hok as [_ Hids Hnd Hrows _].
  match goal with
  | |- ledger_ok (mk_database (save_cycle ?c _) _ _ _ _ _ _ _) =>
      apply (ledger_commit db _ c Hok); simpl
  end.
  - done.
  - done.
  - by split.
  - by apply Forall_filter_list.
  - by apply NoDup_ids_filter.
  - by apply Forall_filter_list.
  - by rewrite total_earnings_delete_cycle, Z.eqb_refl.
  - intros i Hi. rewrite total_earnings_delete_cycle.
    destruct (Z.eqb_spec i (CurrentCycle.id a)); [congruence|lia].
Qed.

Lemma delete_archive_ledger archive_id db :
  ledger_ok db → ledger_ok (delete_archive archive_id db).1.
Proof.
  intros Hok. unfold delete_archive. handler_cases; try done.
  by eapply (ledger_tables db).
Qed.

Lemma update_cycle_fields_ledger now data db :
  ledger_ok db → ledger_ok (update_cycle_fields now data db).1.
Proof.
  intros Hok. unfold update_cycle_fields.
  destruct (get_active_cycle db) as [a|] eqn:Hf; [|done].
  destruct (negb (CurrentCycle.is_active a)); [done|].
  destruct (negb (dict_truthy data)); [done|].
  destruct (patch_fields _ a) as [[c updated]| |] eqn:Hp; try done.
  destruct updated; [|done].
  rewrite respond_with_state_fst. apply get_app_state_ledger.
  apply patch_fields_same in Hp as (? & ? & ? & ? & ? & ?).
  by eapply (ledger_commit_same db _ a).
Qed.

Lemma reset_database_ledger now db :
  ledger_ok db → ledger_ok (reset_database now db).1.
Proof.
  intros Hok. unfold reset_database.
  match goal with
  | |- context [get_or_create_active_cycle now ?d] =>
      pose proof (get_or_create_active_cycle_ledger now d) as Hd;
      destruct (get_or_create_active_cycle now d)
  end.
  simpl in *. apply Hd. split; simpl; constructor.
Qed.

Lemma handle_ledger now req db :
  no_negative_add req → ledger_ok db → ledger_ok (handle now req db).1.
Proof.
  intros Hnn Hok. destruct req; simpl.
  - unfold get_state. rewrite respond_with_state_fst. by apply get_app_state_ledger.
  - by apply start_cycle_ledger.
  - by apply finalize_cycle_ledger.
  - by apply add_earning_ledger.
  - by apply edit_earning_ledger.
  - by apply delete_earning_ledger.
  - by apply add_expense_ledger.
  - by apply delete_expense_ledger.
  - done.
  - by apply archive_period_ledger.
  - by apply delete_archive_ledger.
  - by apply update_cycle_fields_ledger.
  - by apply reset_database_ledger.
Qed.

Lemma serve_ledger reqs db :
  Forall (λ nr : datetime * request, no_negative_add nr.2) reqs →
  ledger_ok db → ledger_ok (serve reqs db).
Proof.
  intros Hreqs. revert db.
  induction Hreqs as [|[now req] reqs Hreq _ IH]; intros db Hok; simpl.
  - done.
  - by apply IH, handle_ledger.
Qed.
End Ledger.

(** ** Earnings *)

Section Earnings.
Context `{PyText}.


(** After a commit of the changed active cycle: the state read back finds
    it. *)
Ltac read_back Hf :=
  rewrite respond_with_state_fst, get_app_state_fst;
  erewrite get_or_create_active_cycle_found
    by (simpl; eapply find_save_cycle; [exact Hf|done|done]);
  eexists; split;
  [simpl; eapply find_save_cycle; [exact Hf|done|done]|].

(** One earning request keeps the active cycle and its race counters at or
    above zero. *)
Lemma earning_request_step now req db cycle :
  earning_request req →
  get_active_cycle db = Some cycle →
  race_counts_ok cycle →
  ∃ cycle', get_active_cycle (handle now req db).1 = Some cycle'
            ∧ CurrentCycle.id cycle' = CurrentCycle.id cycle
            ∧ race_counts_ok cycle'.
Proof.
  intros Hreq Hf [Hc Hp].
  pose proof (get_active_cycle_is_active db cycle Hf) as Hact.
  destruct req; try done; simpl.
  - unfold add_earning. rewrite Hf, Hact. simpl negb. cbv iota.
    handler_cases; try by (exists cycle).
    all: read_back Hf; unfold race_counts_ok; simpl; split_and!; try done; lia.
  - unfold edit_earning. rewrite Hf, Hact. simpl negb. cbv iota.
    handler_cases; try by (exists cycle).
    all: read_back Hf; unfold race_counts_ok; simpl; split_and!; try done; lia.
  - unfold delete_earning. rewrite Hf, Hact. simpl negb. cbv iota.
    handler_cases; try by (exists cycle).
    all: read_back Hf; unfold race_counts_ok; simpl; split_and!; try done; lia.
Qed.

Lemma earning_requests_run reqs db cycle :
  Forall (λ nr : datetime * request, earning_request nr.2) reqs →
  get_active_cycle db = Some cycle →
  race_counts_ok cycle →
  ∃ cycle', get_active_cycle (serve reqs db) = Some cycle'
            ∧ CurrentCycle.id cycle' = CurrentCycle.id cycle
            ∧ race_counts_ok cycle'.
Proof.
  intros Hreqs. revert db cycle.
  induction Hreqs as [|[now req] reqs Hreq _ IH]; intros db cycle Hf Hok; simpl.
  - by exists cycle.
  - destruct (earning_request_step now req db cycle Hreq Hf Hok)
      as (c1 & Hf1 & Hid1 & Hok1).
    destruct (IH _ _ Hf1 Hok1) as (c2 & Hf2 & Hid2 & Hok2).
    exists c2. split_and!; [done|congruence|done].
Qed.

(** A [delete] that is accepted leaves the four totals at or above zero. *)
Lemma delete_earning_clamps now earning_id db :
  (delete_earning now earning_id db).2.2 = 200 →
  ∃ cycle', get_active_cycle (delete_earning now earning_id db).1 = Some cycle'
            ∧ totals_ok cycle'.
Proof.
  unfold delete_earning.
  destruct (get_active_cycle db) as [cycle|] eqn:Hf; [|done].
  pose proof (get_active_cycle_is_active db cycle Hf) as Hact.
  rewrite Hact. simpl negb. cbv iota.
  destruct (find_earning db earning_id cycle); [|done].
  intros _. read_back Hf.
  unfold totals_ok, race_counts_ok. simpl. lia.
Qed.

(** C2, as amended. Over every sequence of earning [add], [edit] and
    [delete] requests on an active cycle whose race counters are not
    negative, the cycle stays the active one and [cumulative_race_count]
    and [current_period_race_count] are never below zero afterwards; right
    after a [delete] that is accepted all four totals
    ([cumulative_earnings] and [current_period_earnings] too) are at or
    above zero; and [cumulative_earnings] is never below zero either, on
    every cycle of every store the API reaches from the empty one, as long
    as no [add] carries a negative [amount]. *)
Theorem earning_requests_totals reqs db cycle :
  Forall (λ nr : datetime * request, earning_request nr.2) reqs →
  get_active_cycle db = Some cycle →
  0 ≤ CurrentCycle.cumulative_race_count cycle →
  0 ≤ CurrentCycle.current_period_race_count cycle →
  (∃ cycle', get_active_cycle (serve reqs db) = Some cycle'
             ∧ CurrentCycle.id cycle' = CurrentCycle.id cycle
             ∧ 0 ≤ CurrentCycle.cumulative_race_count cycle'
             ∧ 0 ≤ CurrentCycle.current_period_race_count cycle')
  ∧ (∀ now earning_id,
       let r := delete_earning now earning_id (serve reqs db) in
       r.2.2 = 200 →
       ∃ cycle', get_active_cycle r.1 = Some cycle'
                 ∧ 0 ≤ CurrentCycle.cumulative_earnings cycle'
                 ∧ 0 ≤ CurrentCycle.current_period_earnings cycle'
                 ∧ 0 ≤ CurrentCycle.cumulative_race_count cycle'
                 ∧ 0 ≤ CurrentCycle.current_period_race_count cycle')
  ∧ (∀ reqs0,
       Forall (λ nr : datetime * request, no_negative_add nr.2) reqs0 →
       Forall (λ c, 0 ≤ CurrentCycle.cumulative_earnings c
                    ∧ 0 ≤ CurrentCycle.cumulative_race_count c
                    ∧ 0 ≤ CurrentCycle.current_period_race_count c)
              (cycles (serve reqs0 empty_database))).
Proof.
  intros Hreqs Hf Hc Hp. split_and!.
  - destruct (earning_requests_run reqs db cycle Hreqs Hf (conj Hc Hp))
      as (c' & ? & ? & ? & ?).
    by exists c'.
  - intros now earning_id r H200.
    destruct (delete_earning_clamps now earning_id _ H200)
      as (c' & ? & ? & ? & ? & ?).
    by exists c'.
  - intros reqs0 Hreqs0.
    apply ledger_ok_nonneg, serve_ledger; [done|]. apply empty_database_ledger.
Qed.
End Earnings.

(** ** Archiving the period *)

Lemma cycle_rows_deleted (i : Z) (l : list Earning.t) :
  List.filter (λ e, Earning.cycle_id e =? i)
              (List.filter (λ e, negb (Earning.cycle_id e =? i)) l) = [].
Proof.
  induction l as [|e l IH]; simpl; [done|].
  destruct (Earning.cycle_id e =? i) eqn:He; simpl; [done|]. by rewrite He.
Qed.

Section ArchivePeriod.
Context `{PyText}.

(** C4. On an active cycle with [current_period_earnings > 0] or
    [current_period_race_count > 0], [archive_period] answers 200 and
    appends one archive whose document has type "Período Parcial" and whose
    [earningsDetails] is the earnings list of the state as it was before
    the call; [GET /api/archives] then lists that document. Every earning
    of the cycle is deleted, the four totals of the cycle are zero, the
    other columns of the cycle are as before and it is still the active
    cycle; the expenses are untouched. *)
Theorem archive_period_effect now now0 data db cycle :
  get_active_cycle db = Some cycle →
  0 < CurrentCycle.current_period_earnings cycle
  ∨ 0 < CurrentCycle.current_period_race_count cycle →
  let before := (get_app_state now0 db).2 in
  let r := archive_period now data db in
  (∃ archive,
      archives r.1 = archives db ++ [archive]
      ∧ Archive.id archive = next_archive_id db
      ∧ Archive.to_dict archive ∈ archives_list r.1
      ∧ (get_archives r.1).2 = (Archives (archives_list r.1), 200)
      ∧ Archive.archiveType (Archive.to_dict archive) = "Período Parcial"
      ∧ Archive.earningsDetails (Archive.to_dict archive)
        = earningsList before)
  ∧ earnings r.1
    = List.filter (λ e, negb (Earning.cycle_id e =? CurrentCycle.id cycle))
                  (earnings db)
  ∧ cycle_earnings r.1 cycle = []
  ∧ expenses r.1 = expenses db
  ∧ ∃ cycle' st,
      get_active_cycle r.1 = Some cycle'
      ∧ r.2 = (State st, 200)
      ∧ currentCycle st = Some cycle'
      ∧ earningsList st = []
      ∧ expenseList st = expenseList before
      ∧ cycle' = CurrentCycle.mk
                   (CurrentCycle.id cycle) (CurrentCycle.gas_cost cycle)
                   (CurrentCycle.start_km cycle) (CurrentCycle.end_km cycle)
                   (CurrentCycle.fuel_price_per_liter cycle) true
                   (CurrentCycle.start_time cycle) 0 0 0 0.
Proof.
  intros Hf Hdata.
  pose proof (get_active_cycle_is_active db cycle Hf) as Hact.
  rewrite (get_app_state_found now0 db cycle Hf).
  unfold archive_period. rewrite Hf, Hact. simpl negb. cbv iota.
  destruct (_ && _) eqn:Hempty.
  { apply andb_true_iff in Hempty as [?%Z.leb_le ?%Z.leb_le]. lia. }
  erewrite get_app_state_found
    by (simpl; eapply find_save_cycle; [exact Hf|done|done]).
  simpl. split_and!.
  - eexists. split_and!; try done.
    unfold archives_list. simpl. apply list_elem_of_fmap. eexists. split; [done|].
    rewrite order_by_Permutation. apply elem_of_app. right. by left.
  - done.
  - unfold cycle_earnings. simpl. apply cycle_rows_deleted.
  - done.
  - eexists _, _. split; [eapply find_save_cycle; [exact Hf|done|done]|].
    unfold cycle_earnings, cycle_expenses. simpl.
    rewrite cycle_rows_deleted. split_and!; try done.
    destruct cycle. simpl in Hact. by subst.
Qed.
End ArchivePeriod.

(** ** Finalizing the cycle *)

Lemma get_or_create_active_cycle_tables now db :
  let db' := (get_or_create_active_cycle now db).1 in
  earnings db' = earnings db ∧ expenses db' = expenses db
  ∧ archives db' = archives db ∧ cycles db ⊆ cycles db'.
Proof.
  unfold get_or_create_active_cycle.
  destruct (get_active_cycle db); simpl; split_and!; try done.
  intros x Hx. apply elem_of_app. by left.
Qed.



Section Finalize.
Context `{PyText}.


(** C6. On an active cycle whose [start_km] is present, [finalize] with an
    [end_km] that converts to an integer below [start_km] answers 400 and
    gives the store back as it was: no archive is created, and the cycle is
    still the active cycle, with every column (also [end_km]) as before. *)
Theorem finalize_end_km_below_start_km now (d : dict) db cycle v end_km start_km :
  get_active_cycle db = Some cycle →
  CurrentCycle.start_km cycle = Some start_km →
  d !! "end_km" = Some v → py_int v = Ok end_km →
  end_km < start_km →
  let r := finalize_cycle now (Some d) db in
  r = (db, (Error (EndKmBelowStartKm end_km start_km), 400))
  ∧ archives r.1 = archives db
  ∧ cycles r.1 = cycles db
  ∧ get_active_cycle r.1 = Some cycle.
Proof.
  intros Hf Hs Hd Hv Hlt.
  pose proof (get_active_cycle_is_active db cycle Hf) as Hact.
  assert (finalize_cycle now (Some d) db
          = (db, (Error (EndKmBelowStartKm end_km start_km), 400))) as ->.
  { unfold finalize_cycle. rewrite Hf, Hact. simpl negb. cbv iota. simpl default.
    rewrite (dict_get_lookup d _ _ Hd).
    destruct v; try done; rewrite Hv; simpl; rewrite Hs;
      by destruct (Z.ltb_spec end_km start_km); [|lia]. }
  done.
Qed.


Lemma find_head_active_rows l :
  List.find CurrentCycle.is_active l = head (active_rows l).
Proof.
  induction l as [|r l IH]; simpl; [done|].
  by destruct (CurrentCycle.is_active r).
Qed.

End Finalize.

(** * Concrete runs *)

(** The scenarios of the specification: an earning of 20.00 is added,
    edited to 35.00 and deleted. *)
Example scenario_add :
  map (λ c, (CurrentCycle.cumulative_earnings c,
             CurrentCycle.current_period_earnings c,
             CurrentCycle.cumulative_race_count c,
             CurrentCycle.current_period_race_count c)) (cycles earning_20)
  = [(2000, 2000, 1, 1)].
Proof. vm_compute. reflexivity. Qed.

Example scenario_edit_delete :
  let edited := serve [(13, EditEarning 1 (Some {[ "amount" := JStr "35.00" ]}))]
                      earning_20 in
  let deleted := serve [(14, DeleteEarning 1)] edited in
  map (λ c, (CurrentCycle.cumulative_earnings c,
             CurrentCycle.current_period_earnings c)) (cycles edited)
  = [(3500, 3500)]
  ∧ map Earning.amount (earnings edited) = [3500]
  ∧ map (λ c, (CurrentCycle.cumulative_earnings c,
               CurrentCycle.current_period_earnings c,
               CurrentCycle.cumulative_race_count c,
               CurrentCycle.current_period_race_count c)) (cycles deleted)
    = [(0, 0, 0, 0)]
  ∧ earnings deleted = [].
Proof. vm_compute. by split_and!. Qed.

Example scenario_finalize :
  let db := serve [(20, FinalizeCycle (Some {[ "end_km" := JInt 1100 ]}))]
                  started_at_1000 in
  map (λ a, (Archive.archiveType (Archive.archive_data a),
             match Archive.detail (Archive.archive_data a) with
             | Archive.CicloCompleto f => Some (Archive.summary_kmDriven f)
             | Archive.PeriodoParcial _ => None
             end)) (archives db)
  = [("Ciclo Completo", Some 100)]
  ∧ map CurrentCycle.is_active (cycles db) = [false; false].
Proof. vm_compute. by split_and!. Qed.

(** C2, the claim as stated fails: a correction of -5.00 on a cycle that has
    earned nothing leaves both earnings totals at -5.00. *)
Lemma add_earning_negative_totals :
  let db := serve [(11, AddEarning (Some (earning_of (JInt (-5)) (JInt (-5)))))]
                  started in
  ∃ cycle, get_active_cycle db = Some cycle
           ∧ CurrentCycle.cumulative_earnings cycle = -500
           ∧ CurrentCycle.current_period_earnings cycle = -500
           ∧ CurrentCycle.cumulative_earnings cycle < 0
           ∧ CurrentCycle.current_period_earnings cycle < 0.
Proof. eexists. split; [vm_compute; reflexivity|]. simpl. lia. Qed.

(** An [edit] can do the same with no negative input: the earning of 10.00
    was added with a period total of 0. *)
Example edit_earning_negative_period_total :
  let db := serve [(11, AddEarning (Some (earning_of (JInt 10) (JInt 0))));
                   (12, EditEarning 1 (Some {[ "amount" := JInt 0 ]}))]
                  started in
  map CurrentCycle.current_period_earnings (cycles db) = [-1000].
Proof. vm_compute. reflexivity. Qed.



(** C8, the code at the failing input: [PUT /api/cycles/current] with
    [gas_cost = -5] is answered 200 and the cycle is saved with a gas cost of
    -5.00, where [start_cycle] rejects the same value. *)
Theorem update_cycle_fields_negative_gas_cost :
  let r := update_cycle_fields 11 (Some {[ "gas_cost" := JInt (-5) ]}) started in
  r.2.2 = 200
  ∧ map CurrentCycle.gas_cost (cycles r.1) = [-500]
  ∧ (start_cycle 12 (Some {[ "gas_cost" := JInt (-5) ]}) started).2
    = (Error GasCostNotPositive, 400).
Proof. vm_compute. by split_and!. Qed.

(** ** The theorems at concrete stores *)

(** C2 at [earning_20]: the earning is edited, a second one is added and
    deleted, the first one is deleted twice; and the cycles of the store
    reached by adding an earning of 20.00 and deleting it. *)
Lemma earning_requests_totals_witness :
  let reqs := [(13, EditEarning 1 (Some {[ "amount" := JInt 5 ]}));
               (14, AddEarning (Some (earning_of (JInt (-30)) (JInt 0))));
               (15, DeleteEarning 1); (16, DeleteEarning 1)] in
  let reqs0 := [(10, start_50);
                (11, AddEarning (Some (earning_of (JFloat 2000) (JFloat 2000))));
                (12, DeleteEarning 1)] in
  (∃ cycle', get_active_cycle (serve reqs earning_20) = Some cycle'
             ∧ 0 ≤ CurrentCycle.cumulative_race_count cycle'
             ∧ 0 ≤ CurrentCycle.current_period_race_count cycle')
  ∧ (∃ cycle', get_active_cycle (delete_earning 15 1 earning_20).1 = Some cycle'
               ∧ 0 ≤ CurrentCycle.cumulative_earnings cycle'
               ∧ 0 ≤ CurrentCycle.current_period_earnings cycle')
  ∧ Forall (λ c, 0 ≤ CurrentCycle.cumulative_earnings c)
           (cycles (serve reqs0 empty_database)).
Proof.
  intros reqs reqs0.
  assert (get_active_cycle earning_20
          = Some (CurrentCycle.mk 1 5000 None None None true 10 2000 1 2000 1))
    as Hf by (vm_compute; reflexivity).
  destruct (earning_requests_totals reqs earning_20 _
              ltac:(repeat constructor) Hf ltac:(simpl; lia) ltac:(simpl; lia))
    as ((c' & Hc' & _ & H1 & H2) & _ & Hall).
  destruct (earning_requests_totals [] earning_20 _
              ltac:(constructor) Hf ltac:(simpl; lia) ltac:(simpl; lia))
    as (_ & Hdel & _).
  split_and!.
  - exists c'. by split_and!.
  - destruct (Hdel 15 1 ltac:(vm_compute; reflexivity))
      as (c'' & Hc'' & H3 & H4 & _).
    exists c''. by split_and!.
  - eapply Forall_impl; [apply (Hall reqs0)|by intros c [? _]].
    repeat constructor. simpl. vm_compute. intros amount [= <-]. done.
Defined.


(** C4 at [earning_20]. *)
Lemma archive_period_effect_witness :
  let r := archive_period 20 None earning_20 in
  (∃ archive, archives r.1 = [archive]
              ∧ Archive.earningsDetails (Archive.to_dict archive)
                = [Earning.mk 1 1 11 2000])
  ∧ cycle_earnings r.1
      (CurrentCycle.mk 1 5000 None None None true 10 2000 1 2000 1) = []
  ∧ expenses r.1 = expenses earning_20.
Proof.
  intros r.
  assert (get_active_cycle earning_20
          = Some (CurrentCycle.mk 1 5000 None None None true 10 2000 1 2000 1))
    as Hf by (vm_compute; reflexivity).
  destruct (archive_period_effect 20 19 None earning_20 _ Hf
              ltac:(left; simpl; lia))
    as ((archive & Harch & _ & _ & _ & _ & Hdetails) & _ & Hdel & Hexp & _).
  split_and!; [|exact Hdel|exact Hexp].
  exists archive. split; [exact Harch|]. rewrite Hdetails.
  vm_compute. reflexivity.
Defined.


(** C6 at [started_at_1000]: an [end_km] of 900. *)
Lemma finalize_end_km_below_start_km_witness :
  finalize_cycle 20 (Some {[ "end_km" := JStr "900" ]}) started_at_1000
  = (started_at_1000, (Error (EndKmBelowStartKm 900 1000), 400)).
Proof.
  assert (get_active_cycle started_at_1000
          = Some (CurrentCycle.mk 1 5000 (Some 1000) None None true 10 0 0 0 0))
    as Hf by (vm_compute; reflexivity).
  apply (finalize_end_km_below_start_km 20 {[ "end_km" := JStr "900" ]}
           started_at_1000 _ (JStr "900") 900 1000 Hf);
    [reflexivity|vm_compute; reflexivity|vm_compute; reflexivity|lia].
Defined.


(** C9 at a store that already holds an inactive cycle. *)
Lemma get_state_inserts_inactive_cycle_witness :
  let db := serve [(10, GetState)] empty_database in
  cycles db = [CurrentCycle.inactive 1 10]
  ∧ cycles (get_state 11 db).1
    = [CurrentCycle.inactive 1 10; CurrentCycle.inactive 2 11].
Proof.
  intros db. split; [vm_compute; reflexivity|].
  destruct (get_state_inserts_inactive_cycle 11 db
              ltac:(vm_compute; reflexivity)) as (Hc & _).
  rewrite Hc. vm_compute. reflexivity.
Defined.


(** * Further properties *)

(** ** The tables after any requests *)

Lemma tables_ok_frame db db' :
  tables_ok db →
  cycles db' = cycles db →
  next_cycle_id db' = next_cycle_id db →
  Forall (λ e, Earning.cycle_id e ∈ map CurrentCycle.id (cycles db)
               ∧ 0 ≤ Earning.amount e) (earnings db') →
  Forall (λ x, Expense.cycle_id x ∈ map CurrentCycle.id (cycles db)
               ∧ 0 < Expense.amount x) (expenses db') →
  tables_ok db'.
Proof.
  intros [Hs He Hx Hc] Hcyc Hn He' Hx'.
  split; unfold store_ok; rewrite ?Hcyc, ?Hn; done.
Qed.

Lemma tables_ok_commit db db' a c :
  tables_ok db →
  get_active_cycle db = Some a →
  cycles db' = save_cycle c (cycles db) →
  next_cycle_id db' = next_cycle_id db →
  CurrentCycle.id c = CurrentCycle.id a →
  km_ordered c → race_counts_ok c →
  Forall (λ e, Earning.cycle_id e ∈ map CurrentCycle.id (cycles db)
               ∧ 0 ≤ Earning.amount e) (earnings db') →
  Forall (λ x, Expense.cycle_id x ∈ map CurrentCycle.id (cycles db)
               ∧ 0 < Expense.amount x) (expenses db') →
  tables_ok db'.
Proof.
  intros [Hs He Hx Hc] Hf Hcyc Hn Hid Hkm Hcnt He' Hx'.
  split; unfold store_ok; rewrite ?Hcyc, ?Hn, ?save_cycle_ids; try done.
  - by eapply cycles_ok_save_cycle.
  - unfold save_cycle. rewrite Forall_fmap.
    eapply Forall_impl; [exact Hc|]. intros r Hr. simpl.
    by destruct (CurrentCycle.id r =? CurrentCycle.id c).
Qed.

Lemma tables_ok_insert db db' c :
  tables_ok db →
  cycles db' = cycles db ++ [c] →
  next_cycle_id db' = next_cycle_id db + 1 →
  earnings db' = earnings db → expenses db' = expenses db →
  CurrentCycle.id c = next_cycle_id db →
  (CurrentCycle.is_active c = true → active_rows (cycles db) = []) →
  km_ordered c → race_counts_ok c →
  tables_ok db'.
Proof.
  intros [Hs He Hx Hc] Hcyc Hn He' Hx' Hid Hact Hkm Hcnt.
  split; unfold store_ok; rewrite ?Hcyc, ?Hn, ?He', ?Hx'.
  - by apply cycles_ok_insert.
  - eapply Forall_impl; [exact He|]. intros e [Hin ?]. split; [|done].
    rewrite map_app. apply elem_of_app. by left.
  - eapply Forall_impl; [exact Hx|]. intros x [Hin ?]. split; [|done].
    rewrite map_app. apply elem_of_app. by left.
  - apply Forall_app. split; [done|]. by apply Forall_singleton.
Qed.

Lemma tables_ok_active db a :
  tables_ok db →
  get_active_cycle db = Some a →
  CurrentCycle.id a ∈ map CurrentCycle.id (cycles db)
  ∧ km_ordered a ∧ race_counts_ok a.
Proof.
  intros [_ _ _ Hc] Hf. apply get_active_cycle_elem_of in Hf.
  rewrite Forall_forall in Hc. split; [by apply list_elem_of_fmap_2|].
  by apply Hc.
Qed.

Lemma get_or_create_active_cycle_tables_ok now db :
  tables_ok db → tables_ok (get_or_create_active_cycle now db).1.
Proof.
  intros Hok. unfold get_or_create_active_cycle.
  destruct (get_active_cycle db); [done|]. simpl.
  eapply (tables_ok_insert db _ (CurrentCycle.inactive (next_cycle_id db) now));
    try done.
Qed.

Lemma get_app_state_tables_ok now db :
  tables_ok db → tables_ok (get_app_state now db).1.
Proof. rewrite get_app_state_fst. apply get_or_create_active_cycle_tables_ok. Qed.

Lemma empty_database_tables_ok : tables_ok empty_database.
Proof. split; [apply empty_database_ok|simpl; constructor..]. Qed.

Lemma patch_start_km_ordered `{PyText} data st st' :
  patch_start_km data st = Next st' → km_ordered st.1 → km_ordered st'.1.
Proof.
  unfold patch_start_km, km_ordered. destruct (dict_has _ _).
  - intros (g & _ & Hk)%and_then_next.
    destruct (CurrentCycle.end_km st.1) as [e|] eqn:He, g as [s|];
      try destruct (Z.gtb_spec s e); simplify_eq; simpl; rewrite ?He; done.
  - by intros [= <-].
Qed.

Lemma patch_end_km_ordered `{PyText} data st st' :
  patch_end_km data st = Next st' → km_ordered st.1 → km_ordered st'.1.
Proof.
  unfold patch_end_km, km_ordered. destruct (dict_has _ _).
  - intros (g & _ & Hk)%and_then_next.
    destruct (CurrentCycle.start_km st.1) as [s|] eqn:Hs, g as [e|];
      try destruct (Z.ltb_spec e s); simplify_eq; simpl; rewrite ?Hs; done.
  - by intros [= <-].
Qed.

Lemma patch_gas_cost_km `{PyText} data st st' :
  patch_gas_cost data st = Next st' →
  CurrentCycle.start_km st'.1 = CurrentCycle.start_km st.1
  ∧ CurrentCycle.end_km st'.1 = CurrentCycle.end_km st.1.
Proof.
  unfold patch_gas_cost. destruct (dict_has _ _).
  - by intros (g & _ & [= <-])%and_then_next.
  - by intros [= <-].
Qed.

Lemma patch_fuel_price_km `{PyText} data st st' :
  patch_fuel_price data st = Next st' →
  CurrentCycle.start_km st'.1 = CurrentCycle.start_km st.1
  ∧ CurrentCycle.end_km st'.1 = CurrentCycle.end_km st.1.
Proof.
  unfold patch_fuel_price. destruct (dict_has _ _).
  - by intros (g & _ & [= <-])%and_then_next.
  - by intros [= <-].
Qed.

Lemma patch_fields_ordered `{PyText} data c st :
  patch_fields data c = Next st → km_ordered c → km_ordered st.1.
Proof.
  unfold patch_fields.
  intros (s1 & H1 & (s2 & H2 & (s3 & H3 & H4)%and_then_next)%and_then_next)%and_then_next Hkm.
  apply patch_gas_cost_km in H1 as [H1s H1e].
  apply patch_fuel_price_km in H2 as [H2s H2e].
  eapply patch_end_km_ordered; [exact H4|].
  eapply patch_start_km_ordered; [exact H3|].
  unfold km_ordered in *. simpl in *. by rewrite H2s, H2e, H1s, H1e.
Qed.

Section Tables.
Context `{PyText}.

Lemma start_cycle_tables_ok now data db :
  tables_ok db → tables_ok (start_cycle now data db).1.
Proof.
  intros Hok. unfold start_cycle.
  destruct (negb (dict_truthy data)); [done|].
  destruct (match dict_get _ "gas_cost" with JNull => _ | _ => _ end)
    as [gas_cost|[]]; try done.
  destruct (gas_cost <=? 0); [done|].
  destruct (if truthy _ then _ else _) as [start_km|]; [|done].
  destruct (if truthy _ then _ else _) as [fuel_price|]; [|done].
  simpl. pose proof Hok as [Hs He Hx Hc].
  match goal with
  | |- tables_ok (mk_database (?l ++ [?c]) _ _ _ _ _ _ _) =>
      apply (tables_ok_insert
               (mk_database l (earnings db) (expenses db) (archives db)
                            (next_cycle_id db) (next_earning_id db)
                            (next_expense_id db) (next_archive_id db)) _ c);
      try done
  end.
  - destruct (get_active_cycle db) as [a|] eqn:Hf.
    + destruct (tables_ok_active db a Hok Hf) as (_ & Hkm & Hcnt).
      by eapply (tables_ok_commit db _ a).
    + by eapply (tables_ok_frame db).
  - intros _. simpl. destruct (get_active_cycle db) as [a|] eqn:Hf.
    + by rewrite (active_rows_save_cycle _ _ a _ Hs Hf).
    + by apply find_none_active_rows.
  - unfold km_ordered. simpl. by destruct start_km.
Qed.

Lemma finalize_cycle_tables_ok now data db :
  tables_ok db → tables_ok (finalize_cycle now data db).1.
Proof.
  intros Hok. unfold finalize_cycle, archive_and_deactivate.
  destruct (get_active_cycle db) as [a|] eqn:Hf; [|done].
  destruct (tables_ok_active db a Hok Hf) as (_ & Hkm & Hcnt).
  pose proof Hok as [Hs He Hx Hc].
  handler_cases; try done.
  all: rewrite respond_with_state_fst; apply get_app_state_tables_ok.
  all: eapply (tables_ok_commit db _ a); try done.
  all: unfold km_ordered; simpl.
  all: repeat match goal with
              | E : CurrentCycle.start_km _ = _ |- _ => rewrite E
              | E : (_ <? _) = false |- _ => apply Z.ltb_ge in E
              end; try done.
Qed.

Lemma add_earning_tables_ok now data db :
  tables_ok db → tables_ok (add_earning now data db).1.
Proof.
  intros Hok. unfold add_earning.
  destruct (get_active_cycle db) as [a|] eqn:Hf; [|done].
  destruct (tables_ok_active db a Hok Hf) as (Hin & Hkm & [Hc1 Hc2]).
  pose proof Hok as [Hs He Hx Hc].
  destruct (negb (CurrentCycle.is_active a)); [done|].
  destruct (_ || _); [done|].
  destruct (py_Decimal _) as [amount|]; [|done].
  destruct (py_Decimal _) as [new_period_total|]; [|done].
  destruct (timestamp_of _ _) as [timestamp|]; [|done].
  rewrite respond_with_state_fst. apply get_app_state_tables_ok.
  destruct (Z.ltb_spec amount 0); destruct (Z.gtb_spec amount 0); try lia.
  all: eapply (tables_ok_commit db _ a); try done.
  all: try (split; simpl; lia).
  all: apply Forall_app; split; [done|]; by apply Forall_singleton.
Qed.

Lemma edit_earning_tables_ok now earning_id data db :
  tables_ok db → tables_ok (edit_earning now earning_id data db).1.
Proof.
  intros Hok. unfold edit_earning.
  destruct (get_active_cycle db) as [a|] eqn:Hf; [|done].
  destruct (tables_ok_active db a Hok Hf) as (Hin & Hkm & Hcnt).
  pose proof Hok as [Hs He Hx Hc].
  destruct (negb (CurrentCycle.is_active a)); [done|].
  destruct (find_earning db earning_id a) as [e|] eqn:Hfind; [|done].
  destruct (find_earning_found db earning_id a e Hfind) as (_ & _ & Hcid).
  destruct (_ || _); [done|].
  destruct (py_Decimal _) as [new_amount|[]]; try done.
  destruct (Z.ltb_spec new_amount 0); [done|].
  rewrite respond_with_state_fst. apply get_app_state_tables_ok.
  eapply (tables_ok_commit db _ a); try done.
  apply Forall_save_earning; [done|]. simpl. by rewrite Hcid.
Qed.

Lemma delete_earning_tables_ok now earning_id db :
  tables_ok db → tables_ok (delete_earning now earning_id db).1.
Proof.
  intros Hok. unfold delete_earning.
  destruct (get_active_cycle db) as [a|] eqn:Hf; [|done].
  destruct (tables_ok_active db a Hok Hf) as (Hin & Hkm & Hcnt).
  pose proof Hok as [Hs He Hx Hc].
  destruct (negb (CurrentCycle.is_active a)); [done|].
  destruct (find_earning db earning_id a) as [e|]; [|done].
  rewrite respond_with_state_fst. apply get_app_state_tables_ok.
  eapply (tables_ok_commit db _ a); try done.
  - split; simpl; lia.
  - by apply Forall_filter_list.
Qed.

Lemma add_expense_tables_ok now data db :
  tables_ok db → tables_ok (add_expense now data db).1.
Proof.
  intros Hok. unfold add_expense.
  destruct (get_active_cycle db) as [a|] eqn:Hf; [|done].
  destruct (tables_ok_active db a Hok Hf) as (Hin & Hkm & Hcnt).
  pose proof Hok as [Hs He Hx Hc].
  destruct (negb (CurrentCycle.is_active a)); [done|].
  destruct (_ || _); [done|].
  destruct (py_Decimal _) as [amount|]; [|done].
  destruct (Z.leb_spec amount 0); [done|].
  destruct (timestamp_of _ _) as [timestamp|]; [|done].
  rewrite respond_with_state_fst. apply get_app_state_tables_ok.
  eapply (tables_ok_frame db); try done.
  apply Forall_app. split; [done|]. by apply Forall_singleton.
Qed.

Lemma delete_expense_tables_ok now expense_id db :
  tables_ok db → tables_ok (delete_expense now expense_id db).1.
Proof.
  intros Hok. unfold delete_expense.
  pose proof Hok as [Hs He Hx Hc].
  handler_cases; try done.
  rewrite respond_with_state_fst. apply get_app_state_tables_ok.
  eapply (tables_ok_frame db); try done. by apply Forall_filter_list.
Qed.

Lemma archive_period_tables_ok now data db :
  tables_ok db → tables_ok (archive_period now data db).1.
Proof.
  intros Hok. unfold archive_period.
  destruct (get_active_cycle db) as [a|] eqn:Hf; [|done].
  destruct (tables_ok_active db a Hok Hf) as (Hin & Hkm & Hcnt).
  pose proof Hok as [Hs He Hx Hc].
  destruct (negb (CurrentCycle.is_active a)); [done|].
  destruct (_ && _); [done|].
  rewrite respond_with_state_fst. apply get_app_state_tables_ok.
  eapply (tables_ok_commit db _ a); try done.
  by apply Forall_filter_list.
Qed.

Lemma delete_archive_tables_ok archive_id db :
  tables_ok db → tables_ok (delete_archive archive_id db).1.
Proof.
  intros Hok. unfold delete_archive. pose proof Hok as [Hs He Hx Hc].
  handler_cases; done.
Qed.

Lemma update_cycle_fields_tables_ok now data db :
  tables_ok db → tables_ok (update_cycle_fields now data db).1.
Proof.
  intros Hok. unfold update_cycle_fields.
  destruct (get_active_cycle db) as [a|] eqn:Hf; [|done].
  destruct (tables_ok_active db a Hok Hf) as (Hin & Hkm & [Hc1 Hc2]).
  pose proof Hok as [Hs He Hx Hc].
  destruct (negb (CurrentCycle.is_active a)); [done|].
  destruct (negb (dict_truthy data)); [done|].
  destruct (patch_fields _ a) as [[c updated]| |] eqn:Hp; try done.
  destruct updated; [|done].
  rewrite respond_with_state_fst. apply get_app_state_tables_ok.
  pose proof (patch_fields_ordered _ _ _ Hp Hkm) as Hkm'.
  apply patch_fields_same in Hp as (? & ? & ? & ? & Hr1 & Hr2). simpl in *.
  eapply (tables_ok_commit db _ a); try done.
  split; [by rewrite Hr1|by rewrite Hr2].
Qed.

Lemma reset_database_tables_ok now db :
  tables_ok db → tables_ok (reset_database now db).1.
Proof.
  intros [[Hb Hnd H1] _ _ _]. unfold reset_database.
  match goal with
  | |- context [get_or_create_active_cycle now ?d] =>
      pose proof (get_or_create_active_cycle_tables_ok now d) as Hd;
      destruct (get_or_create_active_cycle now d)
  end.
  simpl in *. apply Hd.
  split; [split; simpl; [constructor|constructor|lia]|simpl; constructor..].
Qed.

Lemma handle_tables_ok now req db :
  tables_ok db → tables_ok (handle now req db).1.
Proof.
  intros Hok. destruct req; simpl.
  - unfold get_state. rewrite respond_with_state_fst.
    by apply get_app_state_tables_ok.
  - by apply start_cycle_tables_ok.
  - by apply finalize_cycle_tables_ok.
  - by apply add_earning_tables_ok.
  - by apply edit_earning_tables_ok.
  - by apply delete_earning_tables_ok.
  - by apply add_expense_tables_ok.
  - by apply delete_expense_tables_ok.
  - done.
  - by apply archive_period_tables_ok.
  - by apply delete_archive_tables_ok.
  - by apply update_cycle_fields_tables_ok.
  - by apply reset_database_tables_ok.
Qed.

Lemma serve_tables_ok reqs db : tables_ok db → tables_ok (serve reqs db).
Proof.
  revert db. induction reqs as [|[now req] reqs IH]; intros db Hok; simpl.
  - done.
  - by apply IH, handle_tables_ok.
Qed.
End Tables.

Section Reachable.
Context `{PyText}.


(** X2. Every earning and every expense of the store belongs to a cycle that is
    in the cycle table, after any sequence of requests on the initially
    empty store: rows are created for the active cycle only, and cycles are
    deleted by [reset] only, together with every earning and expense. *)
Theorem rows_belong_to_cycles reqs :
  let db := serve reqs empty_database in
  (∀ e, e ∈ earnings db →
        ∃ c, c ∈ cycles db ∧ CurrentCycle.id c = Earning.cycle_id e)
  ∧ (∀ x, x ∈ expenses db →
          ∃ c, c ∈ cycles db ∧ CurrentCycle.id c = Expense.cycle_id x).
Proof.
  destruct (serve_tables_ok reqs empty_database empty_database_tables_ok)
    as [_ He Hx _].
  rewrite Forall_forall in He. rewrite Forall_forall in Hx. split.
  - intros e Hin. destruct (He e Hin) as [Hc _].
    apply list_elem_of_fmap in Hc as (c & ? & ?). by exists c.
  - intros x Hin. destruct (Hx x Hin) as [Hc _].
    apply list_elem_of_fmap in Hc as (c & ? & ?). by exists c.
Qed.

(** X3. On every cycle that has both, [end_km] is not below [start_km], after
    any sequence of requests on the initially empty store: [finalize] and
    both kilometre patches of [update_cycle_fields] check the bound they
    could break against the value the cycle object holds at that point. *)
Theorem kilometres_stay_ordered reqs :
  ∀ c s e, c ∈ cycles (serve reqs empty_database) →
           CurrentCycle.start_km c = Some s →
           CurrentCycle.end_km c = Some e →
           s ≤ e.
Proof.
  destruct (serve_tables_ok reqs empty_database empty_database_tables_ok)
    as [_ _ _ Hc].
  rewrite Forall_forall in Hc. intros c s e Hin Hs He.
  destruct (Hc c Hin) as [Hkm _]. unfold km_ordered in Hkm.
  by rewrite Hs, He in Hkm.
Qed.
End Reachable.

(** ** Requests that are not accepted *)


Section Rejected.
Context `{PyText}.



(** With no active cycle, every request that works on the active cycle
    (finalize, the earning and expense requests, archive-period and the
    field update) is answered 400 and changes nothing. *)
Lemma no_active_cycle_is_400 now req db :
  get_active_cycle db = None →
  needs_active_cycle req →
  (handle now req db).2.2 = 400 ∧ (handle now req db).1 = db.
Proof.
  intros Hf Hreq. destruct req; try done; simpl.
  - unfold finalize_cycle. by rewrite Hf.
  - unfold add_earning. by rewrite Hf.
  - unfold edit_earning. by rewrite Hf.
  - unfold delete_earning. by rewrite Hf.
  - unfold add_expense. by rewrite Hf.
  - unfold delete_expense. by rewrite Hf.
  - unfold archive_period. by rewrite Hf.
  - unfold update_cycle_fields. by rewrite Hf.
Qed.
End Rejected.

(** ** Starting, finalizing and resetting *)

(** No earning and no expense refers to the next key of the cycle
    sequence. *)
Lemma next_cycle_has_no_rows db :
  tables_ok db →
  List.filter (λ e, Earning.cycle_id e =? next_cycle_id db) (earnings db) = []
  ∧ List.filter (λ x, Expense.cycle_id x =? next_cycle_id db) (expenses db) = [].
Proof.
  intros [[Hb _ _] He Hx _]. rewrite Forall_forall in Hb.
  assert (∀ i, i ∈ map CurrentCycle.id (cycles db) → i ≠ next_cycle_id db) as Hne.
  { intros i (c & -> & Hc)%list_elem_of_fmap. specialize (Hb c Hc). simpl in Hb. lia. }
  split.
  - induction He as [|e l [Hin _] _ IH]; simpl; [done|].
    destruct (Z.eqb_spec (Earning.cycle_id e) (next_cycle_id db)); [|done].
    by destruct (Hne _ Hin).
  - induction Hx as [|x l [Hin _] _ IH]; simpl; [done|].
    destruct (Z.eqb_spec (Expense.cycle_id x) (next_cycle_id db)); [|done].
    by destruct (Hne _ Hin).
Qed.

Lemma find_active_app_inactive l c :
  active_rows l = [] →
  List.find CurrentCycle.is_active (l ++ [c])
  = if CurrentCycle.is_active c then Some c else None.
Proof.
  intros Hl. induction l as [|r l IH]; simpl in *.
  - by destruct (CurrentCycle.is_active c).
  - destruct (CurrentCycle.is_active r); [done|]. by apply IH.
Qed.

Lemma find_none_all {A} (f : A → bool) l :
  (∀ x, In x l → f x = false) → List.find f l = None.
Proof.
  induction l as [|y l IH]; simpl; [done|]. intros Hall.
  rewrite (Hall y) by (by left). apply IH. intros x Hx. apply Hall. by right.
Qed.

Section Lifecycle.
Context `{PyText}.

(** What a [start] that is accepted has done. *)
Lemma start_cycle_accepted now data db db1 resp :
  store_ok db →
  start_cycle now data db = (db1, resp) →
  resp.2 = 201 →
  ∃ gas_cost start_km fuel_price,
    let new := CurrentCycle.mk (next_cycle_id db) gas_cost start_km None
                               fuel_price true now 0 0 0 0 in
    py_Decimal (dict_get (default ∅ data) "gas_cost") = Ok gas_cost
    ∧ 0 < gas_cost
    ∧ resp = (Cycle new, 201)
    ∧ get_active_cycle db1 = Some new
    ∧ earnings db1 = earnings db ∧ expenses db1 = expenses db
    ∧ archives db1 = archives db
    ∧ next_cycle_id db1 = next_cycle_id db + 1.
Proof.
  intros Hok. unfold start_cycle.
  destruct (negb (dict_truthy data)); [by intros [= <- <-]|].
  destruct (dict_get (default ∅ data) "gas_cost") eqn:Hg;
    try by (simpl; intros [= <- <-]).
  all: destruct (py_Decimal _) as [gas_cost|[]] eqn:Hgas;
    try by intros [= <- <-].
  all: destruct (Z.leb_spec gas_cost 0); [by intros [= <- <-]|].
  all: destruct (if truthy _ then _ else _) as [start_km|];
    [|by intros [= <- <-]].
  all: destruct (if truthy _ then _ else _) as [fuel_price|];
    [|by intros [= <- <-]].
  all: intros [= <- <-] _; exists gas_cost, start_km, fuel_price.
  all: simpl; split_and!; try done.
  all: destruct (get_active_cycle db) as [a|] eqn:Hf.
  all: unfold get_active_cycle; simpl; rewrite find_active_app_inactive; [done|].
  all: first [exact (active_rows_save_cycle _ _ a
                       (CurrentCycle.set_is_active false a) Hok Hf eq_refl)
             |by apply find_none_active_rows].
Qed.


(** X6. A cycle that has just been started has no earning and no expense: the
    rows of the cycles before it stay with them. Whatever earning or expense
    id a request then names, it is answered 404. *)
Theorem started_cycle_is_empty reqs now data db1 new :
  start_cycle now data (serve reqs empty_database) = (db1, (Cycle new, 201)) →
  cycle_earnings db1 new = []
  ∧ cycle_expenses db1 new = []
  ∧ (∀ now' earning_id data',
       (edit_earning now' earning_id data' db1).2.2 = 404
       ∧ (delete_earning now' earning_id db1).2.2 = 404)
  ∧ (∀ now' expense_id, (delete_expense now' expense_id db1).2.2 = 404).
Proof.
  intros Hs.
  pose proof (serve_tables_ok reqs _ empty_database_tables_ok) as Hok.
  destruct (start_cycle_accepted _ _ _ _ _
              (serve_ok reqs _ empty_database_ok) Hs eq_refl)
    as (g & s & f & _ & _ & [= Hnew] & Hf & He & Hx & _).
  rewrite <- Hnew in Hf.
  destruct (next_cycle_has_no_rows _ Hok) as [Hne Hnx].
  assert (cycle_earnings db1 new = []) as Hce.
  { unfold cycle_earnings. by rewrite He, Hnew. }
  assert (cycle_expenses db1 new = []) as Hcx.
  { unfold cycle_expenses. by rewrite Hx, Hnew. }
  assert (∀ i, find_earning db1 i new = None) as Hfe.
  { intros i. unfold find_earning. apply find_none_all. intros e Hin.
    destruct (Z.eqb_spec (Earning.cycle_id e) (CurrentCycle.id new)) as [Hc|];
      [|by rewrite andb_false_r].
    assert (In e (cycle_earnings db1 new)) as Hin'
      by (apply filter_In; split; [done|by apply Z.eqb_eq]).
    by rewrite Hce in Hin'. }
  assert (∀ i, find_expense db1 i new = None) as Hfx.
  { intros i. unfold find_expense. apply find_none_all. intros e Hin.
    destruct (Z.eqb_spec (Expense.cycle_id e) (CurrentCycle.id new)) as [Hc|];
      [|by rewrite andb_false_r].
    assert (In e (cycle_expenses db1 new)) as Hin'
      by (apply filter_In; split; [done|by apply Z.eqb_eq]).
    by rewrite Hcx in Hin'. }
  split_and!; try done.
  - intros now' earning_id data'. unfold edit_earning, delete_earning.
    rewrite Hf, Hfe. by rewrite Hnew.
  - intros now' expense_id. unfold delete_expense. rewrite Hf, Hfx. by rewrite Hnew.
Qed.

(** X7. [start_km] and [fuel_price] are converted outside the [try]: with a
    gas cost that is accepted, a [start_km] text that [int] rejects is an
    exception nobody catches. The request ends in a 500 and nothing is
    stored. *)
Theorem start_cycle_start_km_not_caught now (d : dict) db gas_cost e :
  dict_get d "gas_cost" ≠ JNull →
  py_Decimal (dict_get d "gas_cost") = Ok gas_cost →
  0 < gas_cost →
  truthy (dict_get d "start_km") = true →
  py_int (dict_get d "start_km") = Raise e →
  start_cycle now (Some d) db = (db, (Unhandled e, 500)).
Proof.
  intros Hnull Hg Hpos Ht Hint. unfold start_cycle.
  assert (dict_truthy (Some d) = true) as ->.
  { simpl. rewrite bool_decide_false; [done|]. intros ->.
    unfold dict_get in Hnull. by rewrite lookup_empty in Hnull. }
  simpl negb. cbv iota. simpl default.
  destruct (dict_get d "gas_cost") eqn:Hv; [done|..].
  all: rewrite Hg; destruct (Z.leb_spec gas_cost 0); [lia|].
  all: by rewrite Ht, Hint.
Qed.
End Lifecycle.

Section AfterTheCycle.
Context `{PyText}.

(** The store and the state after [archive_and_deactivate]: no cycle is
    active, and [get_app_state] has inserted the next inactive cycle. *)
Lemma archive_and_deactivate_state now db a c note :
  tables_ok db →
  get_active_cycle db = Some a →
  CurrentCycle.id c = CurrentCycle.id a →
  let r := archive_and_deactivate now db c note in
  let fresh := CurrentCycle.inactive (next_cycle_id db) now in
  get_active_cycle r.1 = None
  ∧ cycles r.1
    = save_cycle (CurrentCycle.set_is_active false c) (cycles db) ++ [fresh]
  ∧ earnings r.1 = earnings db ∧ expenses r.1 = expenses db
  ∧ r.2 = (State (mk_app_state (Some fresh) [] [] (archives_list r.1)), 200).
Proof.
  intros Hok Hf Hid. pose proof Hok as [Hs _ _ _].
  destruct (next_cycle_has_no_rows db Hok) as [Hne Hnx].
  assert (active_rows (save_cycle (CurrentCycle.set_is_active false c) (cycles db))
          = []) as Hnone
    by exact (active_rows_save_cycle _ _ a
                (CurrentCycle.set_is_active false c) Hs Hf Hid).
  assert (∀ ar na,
            get_active_cycle
              (mk_database
                 (save_cycle (CurrentCycle.set_is_active false c) (cycles db))
                 (earnings db) (expenses db) ar (next_cycle_id db)
                 (next_earning_id db) (next_expense_id db) na) = None) as Hnot.
  { intros ar na. unfold get_active_cycle. cbn [cycles].
    by rewrite find_head_active_rows, Hnone. }
  unfold archive_and_deactivate, get_app_state, get_or_create_active_cycle.
  rewrite Hnot. cbn [fst snd cycles earnings expenses next_cycle_id].
  split_and!; try done.
  - unfold get_active_cycle. cbn [cycles].
    by rewrite find_active_app_inactive.
  - unfold cycle_earnings, cycle_expenses.
    cbn [earnings expenses CurrentCycle.id CurrentCycle.inactive].
    by rewrite Hne, Hnx.
Qed.

(** X8. After a [finalize] that is accepted no cycle is active. The earnings and
    expenses of the finalized cycle are not deleted; they stay with it. The
    state in the response shows a new inactive cycle with zeroed totals and
    empty earnings and expense lists, which the request has inserted, and
    every request that works on the active cycle is answered 400 until the
    next [start]. *)
Theorem finalize_cycle_leaves_no_active_cycle reqs now data :
  let db := serve reqs empty_database in
  let r := finalize_cycle now data db in
  let fresh := CurrentCycle.inactive (next_cycle_id db) now in
  r.2.2 = 200 →
  get_active_cycle r.1 = None
  ∧ earnings r.1 = earnings db ∧ expenses r.1 = expenses db
  ∧ r.2.1 = State (mk_app_state (Some fresh) [] [] (archives_list r.1))
  ∧ fresh ∈ cycles r.1
  ∧ ∀ now' req, needs_active_cycle req →
                (handle now' req r.1).2.2 = 400 ∧ (handle now' req r.1).1 = r.1.
Proof.
  intros db r fresh H200.
  pose proof (serve_tables_ok reqs _ empty_database_tables_ok) as Hok.
  fold db in Hok.
  assert (∃ a c note, get_active_cycle db = Some a
                      ∧ r = archive_and_deactivate now db c note
                      ∧ CurrentCycle.id c = CurrentCycle.id a)
    as (a & c & note & Hf & Hr & Hid).
  { subst r. revert H200. unfold finalize_cycle.
    destruct (get_active_cycle db) as [a|]; [|done].
    handler_cases; try done; intros _; by eexists a, _, _. }
  destruct (archive_and_deactivate_state now db a c note Hok Hf Hid)
    as (Hnone & Hcyc & He & Hx & Hresp).
  rewrite <- Hr in Hnone, Hcyc, He, Hx, Hresp.
  split_and!; try done.
  - by rewrite Hresp.
  - rewrite Hcyc. apply elem_of_app. right. by left.
  - intros now' req Hreq. by apply no_active_cycle_is_400.
Qed.

(** X9. [reset] empties the four tables and bootstraps one inactive cycle with
    zeroed totals. The key sequences are not reset: the key of the new cycle
    is above the key of every cycle there was. No cycle is active
    afterwards, so the requests on the active cycle are answered 400. *)
Theorem reset_database_bootstraps_one_cycle reqs now :
  let db := serve reqs empty_database in
  let r := reset_database now db in
  let fresh := CurrentCycle.inactive (next_cycle_id db) now in
  r.2 = (ResetDone, 200)
  ∧ cycles r.1 = [fresh]
  ∧ earnings r.1 = [] ∧ expenses r.1 = [] ∧ archives r.1 = []
  ∧ (∀ c, c ∈ cycles db → CurrentCycle.id c < CurrentCycle.id fresh)
  ∧ next_earning_id r.1 = next_earning_id db
  ∧ next_expense_id r.1 = next_expense_id db
  ∧ next_archive_id r.1 = next_archive_id db
  ∧ ∀ now' req, needs_active_cycle req → (handle now' req r.1).2.2 = 400.
Proof.
  intros db r fresh. subst r. unfold reset_database. simpl.
  split_and!; try done.
  - destruct (serve_ok reqs _ empty_database_ok) as [Hb _ _].
    rewrite Forall_forall in Hb. intros c Hc. by apply Hb.
  - intros now' req Hreq. by apply no_active_cycle_is_400.
Qed.

(** X10. A second [archive_period] right after one that was accepted finds the
    period empty: it is answered 400 and archives nothing. *)
Theorem archive_period_twice now1 now2 data1 data2 db :
  (archive_period now1 data1 db).2.2 = 200 →
  archive_period now2 data2 (archive_period now1 data1 db).1
  = ((archive_period now1 data1 db).1, (Error NothingToArchive, 400)).
Proof.
  unfold archive_period at 1 3 4.
  destruct (get_active_cycle db) as [a|] eqn:Hf; [|done].
  pose proof (get_active_cycle_is_active db a Hf) as Hact.
  rewrite Hact. simpl negb. cbv iota.
  destruct (_ && _); [done|]. intros _.
  match goal with
  | |- context [get_app_state now1 ?d] =>
      assert (∃ c, get_active_cycle d = Some c
                   ∧ CurrentCycle.is_active c = true
                   ∧ CurrentCycle.current_period_earnings c = 0
                   ∧ CurrentCycle.current_period_race_count c = 0)
        as (c & Hc & Hcact & Hpe & Hpc)
        by (eexists; split; [simpl; eapply find_save_cycle; [exact Hf|done|done]
                            |done]);
      rewrite (get_app_state_found now1 d c Hc)
  end.
  unfold archive_period. simpl fst. by rewrite Hc, Hcact, Hpe, Hpc.
Qed.
End AfterTheCycle.

(** ** Editing and deleting rows *)



Section Rows.
Context `{PyText}.


(** X12. On an active cycle, [delete] of one of its earnings removes every row
    with that key and no other row, subtracts the amount from
    [cumulative_earnings] and [current_period_earnings] and one from both
    race counters, each with a floor of zero. An id that is no earning of
    the active cycle is answered 404 and changes nothing. *)
Theorem delete_earning_effect now earning_id db cycle :
  get_active_cycle db = Some cycle →
  let r := delete_earning now earning_id db in
  (find_earning db earning_id cycle = None →
   r = (db, (Error EarningNotFound, 404)))
  ∧ (∀ earning,
       find_earning db earning_id cycle = Some earning →
       r.2.2 = 200
       ∧ (∀ e, e ∈ earnings r.1 ↔ e ∈ earnings db ∧ Earning.id e ≠ earning_id)
       ∧ expenses r.1 = expenses db ∧ archives r.1 = archives db
       ∧ ∃ cycle',
           get_active_cycle r.1 = Some cycle'
           ∧ CurrentCycle.cumulative_earnings cycle'
             = 0 `max` (CurrentCycle.cumulative_earnings cycle
                        - Earning.amount earning)
           ∧ CurrentCycle.current_period_earnings cycle'
             = 0 `max` (CurrentCycle.current_period_earnings cycle
                        - Earning.amount earning)
           ∧ CurrentCycle.cumulative_race_count cycle'
             = 0 `max` (CurrentCycle.cumulative_race_count cycle - 1)
           ∧ CurrentCycle.current_period_race_count cycle'
             = 0 `max` (CurrentCycle.current_period_race_count cycle - 1)).
Proof.
  intros Hf.
  pose proof (get_active_cycle_is_active db cycle Hf) as Hact.
  unfold delete_earning. rewrite Hf, Hact. simpl negb. cbv iota. split.
  - by intros ->.
  - intros earning He. rewrite He.
    destruct (find_earning_found db earning_id cycle earning He)
      as (Hin & Hid & Hcid).
    erewrite get_app_state_found
      by (simpl; eapply find_save_cycle; [exact Hf|done|done]).
    simpl. split_and!; try done.
    + intros e. rewrite !list_elem_of_In, filter_In, Hid.
      destruct (Z.eqb_spec (Earning.id e) earning_id); simpl; intuition congruence.
    + eexists. split; [eapply find_save_cycle; [exact Hf|done|done]|done].
Qed.


(** X14. [delete_archive] never adjusts a cycle: whatever the type of the
    archive and whether or not a cycle is active, the cycles, the earnings
    and the expenses are as before. When an archive has the id, the request
    answers 200, no archive with the id is left, and every other archive
    stays; otherwise it answers 404. *)
Theorem delete_archive_keeps_cycles archive_id db :
  let r := delete_archive archive_id db in
  cycles r.1 = cycles db ∧ earnings r.1 = earnings db
  ∧ expenses r.1 = expenses db
  ∧ (∀ a, a ∈ archives r.1 ↔ a ∈ archives db ∧ Archive.id a ≠ archive_id)
  ∧ ((∃ a, a ∈ archives db ∧ Archive.id a = archive_id) →
     r.2 = (Deleted (archives_list r.1), 200))
  ∧ ((∀ a, a ∈ archives db → Archive.id a ≠ archive_id) →
     r = (db, (Error ArchiveNotFound, 404))).
Proof.
  unfold delete_archive.
  destruct (List.find _ _) as [archive|] eqn:Hfind; simpl.
  - apply find_some in Hfind as [Hin Hid%Z.eqb_eq].
    split_and!; try done.
    + intros a. rewrite !list_elem_of_In, filter_In, Hid.
      destruct (Z.eqb_spec (Archive.id a) archive_id); simpl; intuition congruence.
    + intros Hall. destruct (Hall archive); [by apply list_elem_of_In|done].
  - split_and!; try done.
    + intros a. split; [|by intros [? _]]. intros Hin. split; [done|].
      apply list_elem_of_In in Hin.
      apply (find_none _ _ Hfind) in Hin. by apply Z.eqb_neq.
    + intros (a & Hin%list_elem_of_In & Hid).
      apply (find_none _ _ Hfind) in Hin. apply Z.eqb_neq in Hin. done.
Qed.
End Rows.

(** ** Updating the fields of the cycle *)

Section Patches.
Context `{PyText}.

Lemma patch_gas_cost_effect data st st' :
  patch_gas_cost data st = Next st' →
  (if dict_has data "gas_cost"
   then py_Decimal (dict_get data "gas_cost") = Ok (CurrentCycle.gas_cost st'.1)
        ∧ st'.2 = true
   else CurrentCycle.gas_cost st'.1 = CurrentCycle.gas_cost st.1 ∧ st'.2 = st.2)
  ∧ CurrentCycle.fuel_price_per_liter st'.1 = CurrentCycle.fuel_price_per_liter st.1
  ∧ CurrentCycle.start_km st'.1 = CurrentCycle.start_km st.1
  ∧ CurrentCycle.end_km st'.1 = CurrentCycle.end_km st.1
  ∧ CurrentCycle.start_time st'.1 = CurrentCycle.start_time st.1.
Proof.
  unfold patch_gas_cost. destruct (dict_has _ _).
  - intros (g & Hg%of_pyres_next & [= <-])%and_then_next. by rewrite Hg.
  - by intros [= <-].
Qed.

Lemma patch_fuel_price_effect data st st' :
  patch_fuel_price data st = Next st' →
  (if dict_has data "fuel_price"
   then match dict_get data "fuel_price" with
        | JNull => Ok None
        | v => pyres_map Some (py_Decimal v)
        end = Ok (CurrentCycle.fuel_price_per_liter st'.1)
        ∧ st'.2 = true
   else CurrentCycle.fuel_price_per_liter st'.1
        = CurrentCycle.fuel_price_per_liter st.1 ∧ st'.2 = st.2)
  ∧ CurrentCycle.gas_cost st'.1 = CurrentCycle.gas_cost st.1
  ∧ CurrentCycle.start_km st'.1 = CurrentCycle.start_km st.1
  ∧ CurrentCycle.end_km st'.1 = CurrentCycle.end_km st.1
  ∧ CurrentCycle.start_time st'.1 = CurrentCycle.start_time st.1.
Proof.
  unfold patch_fuel_price. destruct (dict_has _ _).
  - intros (p & Hp & [= <-])%and_then_next. simpl. split_and!; try done.
    destruct (dict_get data "fuel_price"); simpl in *;
      first [by simplify_eq|by apply of_pyres_next in Hp as ->].
  - by intros [= <-].
Qed.

Lemma patch_start_km_effect data st st' :
  patch_start_km data st = Next st' →
  (if dict_has data "start_km"
   then match dict_get data "start_km" with
        | JNull => Ok None
        | v => pyres_map Some (py_int v)
        end = Ok (CurrentCycle.start_km st'.1)
        ∧ st'.2 = true
   else CurrentCycle.start_km st'.1 = CurrentCycle.start_km st.1 ∧ st'.2 = st.2)
  ∧ CurrentCycle.gas_cost st'.1 = CurrentCycle.gas_cost st.1
  ∧ CurrentCycle.fuel_price_per_liter st'.1 = CurrentCycle.fuel_price_per_liter st.1
  ∧ CurrentCycle.end_km st'.1 = CurrentCycle.end_km st.1
  ∧ CurrentCycle.start_time st'.1 = CurrentCycle.start_time st.1.
Proof.
  unfold patch_start_km. destruct (dict_has _ _).
  - intros (s & Hs & Hk)%and_then_next.
    assert (st'.1 = CurrentCycle.set_start_km s st.1 ∧ st'.2 = true) as [-> ->].
    { destruct (CurrentCycle.end_km st.1), s; try destruct (_ >? _);
        by simplify_eq. }
    simpl. split_and!; try done.
    destruct (dict_get data "start_km"); simpl in *;
      first [by simplify_eq|by apply of_pyres_next in Hs as ->].
  - by intros [= <-].
Qed.

Lemma patch_end_km_effect data st st' :
  patch_end_km data st = Next st' →
  (if dict_has data "end_km"
   then match dict_get data "end_km" with
        | JNull => Ok None
        | v => pyres_map Some (py_int v)
        end = Ok (CurrentCycle.end_km st'.1)
        ∧ st'.2 = true
   else CurrentCycle.end_km st'.1 = CurrentCycle.end_km st.1 ∧ st'.2 = st.2)
  ∧ CurrentCycle.gas_cost st'.1 = CurrentCycle.gas_cost st.1
  ∧ CurrentCycle.fuel_price_per_liter st'.1 = CurrentCycle.fuel_price_per_liter st.1
  ∧ CurrentCycle.start_km st'.1 = CurrentCycle.start_km st.1
  ∧ CurrentCycle.start_time st'.1 = CurrentCycle.start_time st.1.
Proof.
  unfold patch_end_km. destruct (dict_has _ _).
  - intros (e & He & Hk)%and_then_next.
    assert (st'.1 = CurrentCycle.set_end_km e st.1 ∧ st'.2 = true) as [-> ->].
    { destruct (CurrentCycle.start_km st.1), e; try destruct (_ <? _);
        by simplify_eq. }
    simpl. split_and!; try done.
    destruct (dict_get data "end_km"); simpl in *;
      first [by simplify_eq|by apply of_pyres_next in He as ->].
  - by intros [= <-].
Qed.
End Patches.

Lemma and_then_return {A B} (m : flow A) (k : A → flow B) r :
  and_then m k = Return r →
  m = Return r ∨ ∃ a, m = Next a ∧ k a = Return r.
Proof. destruct m; simpl; [eauto|done|intros [= ->]; by left]. Qed.

Lemma of_pyres_return {A} (m : pyres A) r : of_pyres m = Return r → False.
Proof. by destruct m. Qed.

Section UpdateFields.
Context `{PyText}.

(** The only early returns of the patches are the two 400 of the kilometre
    bounds. *)
Lemma patch_fields_return data c r : patch_fields data c = Return r → r.2 = 400.
Proof.
  unfold patch_fields. intros Hr.
  apply and_then_return in Hr as [Hr|(s1 & _ & Hr)].
  { unfold patch_gas_cost in Hr. destruct (dict_has _ _); [|done].
    apply and_then_return in Hr as [Hr|(g & _ & Hr)]; [|done].
    by apply of_pyres_return in Hr. }
  apply and_then_return in Hr as [Hr|(s2 & _ & Hr)].
  { unfold patch_fuel_price in Hr. destruct (dict_has _ _); [|done].
    apply and_then_return in Hr as [Hr|(g & _ & Hr)]; [|done].
    destruct (dict_get _ _); try done; by apply of_pyres_return in Hr. }
  apply and_then_return in Hr as [Hr|(s3 & _ & Hr)].
  - unfold patch_start_km in Hr. destruct (dict_has _ _); [|done].
    apply and_then_return in Hr as [Hr|(s & _ & Hr)].
    + destruct (dict_get _ _); try done; by apply of_pyres_return in Hr.
    + destruct (CurrentCycle.end_km _), s; try done.
      destruct (_ >? _); by simplify_eq.
  - unfold patch_end_km in Hr. destruct (dict_has _ _); [|done].
    apply and_then_return in Hr as [Hr|(e & _ & Hr)].
    + destruct (dict_get _ _); try done; by apply of_pyres_return in Hr.
    + destruct (CurrentCycle.start_km _), e; try done.
      destruct (_ <? _); by simplify_eq.
Qed.

(** X15. An update that is accepted changes the columns the patch names and no
    other: each of [gas_cost], [fuel_price], [start_km] and [end_km] that is
    a key of the patch is stored as converted (null clears the three that
    can be null), each that is no key keeps its value, and the key,
    [is_active], [start_time] and the four totals of the cycle, the
    earnings, the expenses and the archives are never touched. The patch
    has at least one of the four keys. *)
Theorem update_cycle_fields_effect now data db cycle :
  get_active_cycle db = Some cycle →
  let d := default ∅ data in
  let r := update_cycle_fields now data db in
  r.2.2 = 200 →
  earnings r.1 = earnings db ∧ expenses r.1 = expenses db
  ∧ archives r.1 = archives db
  ∧ dict_has d "gas_cost" || dict_has d "fuel_price"
    || dict_has d "start_km" || dict_has d "end_km" = true
  ∧ ∃ cycle',
      get_active_cycle r.1 = Some cycle'
      ∧ same_row cycle cycle'
      ∧ CurrentCycle.start_time cycle' = CurrentCycle.start_time cycle
      ∧ (if dict_has d "gas_cost"
         then py_Decimal (dict_get d "gas_cost")
              = Ok (CurrentCycle.gas_cost cycle')
         else CurrentCycle.gas_cost cycle' = CurrentCycle.gas_cost cycle)
      ∧ (if dict_has d "fuel_price"
         then match dict_get d "fuel_price" with
              | JNull => Ok None
              | v => pyres_map Some (py_Decimal v)
              end = Ok (CurrentCycle.fuel_price_per_liter cycle')
         else CurrentCycle.fuel_price_per_liter cycle'
              = CurrentCycle.fuel_price_per_liter cycle)
      ∧ (if dict_has d "start_km"
         then match dict_get d "start_km" with
              | JNull => Ok None
              | v => pyres_map Some (py_int v)
              end = Ok (CurrentCycle.start_km cycle')
         else CurrentCycle.start_km cycle' = CurrentCycle.start_km cycle)
      ∧ (if dict_has d "end_km"
         then match dict_get d "end_km" with
              | JNull => Ok None
              | v => pyres_map Some (py_int v)
              end = Ok (CurrentCycle.end_km cycle')
         else CurrentCycle.end_km cycle' = CurrentCycle.end_km cycle).
Proof.
  intros Hf d r. subst r.
  pose proof (get_active_cycle_is_active db cycle Hf) as Hact.
  unfold update_cycle_fields. rewrite Hf, Hact. simpl negb. cbv iota.
  destruct (negb (dict_truthy data)); [done|]. fold d.
  destruct (patch_fields d cycle) as [[c updated]| |resp] eqn:Hp; [|done|].
  2:{ apply patch_fields_return in Hp. simpl. intros H200. congruence. }
  destruct updated; [|done].
  assert (CurrentCycle.id c = CurrentCycle.id cycle
          ∧ CurrentCycle.is_active c = true) as [Hid Hcact].
  { apply patch_fields_same in Hp as (? & ? & _). simpl in *. split; congruence. }
  erewrite get_app_state_found
    by (simpl; eapply find_save_cycle; [exact Hf|done|done]).
  intros _. simpl. split_and!; try done.
  - revert Hp. unfold patch_fields.
    intros (s1 & H1 & (s2 & H2 & (s3 & H3 & H4)%and_then_next)%and_then_next)%and_then_next.
    apply patch_gas_cost_effect in H1 as (H1 & _).
    apply patch_fuel_price_effect in H2 as (H2 & _).
    apply patch_start_km_effect in H3 as (H3 & _).
    apply patch_end_km_effect in H4 as (H4 & _). simpl in *.
    destruct (dict_has d "gas_cost"), (dict_has d "fuel_price"),
      (dict_has d "start_km"), (dict_has d "end_km"); try done.
    destruct_and!. congruence.
  - exists c. split; [eapply find_save_cycle; [exact Hf|done|done]|].
    split; [by apply (patch_fields_same _ _ _ Hp)|].
    revert Hp. unfold patch_fields.
    intros (s1 & H1 & (s2 & H2 & (s3 & H3 & H4)%and_then_next)%and_then_next)%and_then_next.
    apply patch_gas_cost_effect in H1 as (H1 & ? & ? & ? & ?).
    apply patch_fuel_price_effect in H2 as (H2 & ? & ? & ? & ?).
    apply patch_start_km_effect in H3 as (H3 & ? & ? & ? & ?).
    apply patch_end_km_effect in H4 as (H4 & ? & ? & ? & ?). simpl in *.
    destruct (dict_has d "gas_cost"), (dict_has d "fuel_price"),
      (dict_has d "start_km"), (dict_has d "end_km");
      destruct_and!; split_and!; congruence.
Qed.

(** X16. A patch whose [start_km] is above the [end_km] the cycle has stored is
    answered 400 and changes nothing, whatever else it carries: its
    [gas_cost] and [fuel_price] are not committed, and an [end_km] of the
    same patch that would restore the order is not looked at, since
    [start_km] is checked before [end_km] is applied. *)
Theorem update_cycle_fields_start_km_above_end_km now (d : dict) db cycle v
    start_km end_km :
  get_active_cycle db = Some cycle →
  CurrentCycle.end_km cycle = Some end_km →
  d !! "start_km" = Some v → py_int v = Ok start_km →
  end_km < start_km →
  let r := update_cycle_fields now (Some d) db in
  r.2.2 = 400 ∧ r.1 = db.
Proof.
  intros Hf He Hd Hv Hlt.
  pose proof (get_active_cycle_is_active db cycle Hf) as Hact.
  unfold update_cycle_fields.
  rewrite Hf, Hact, (dict_truthy_lookup d _ _ Hd). simpl negb. cbv iota.
  simpl default.
  destruct (patch_fields d cycle) as [[c updated]| |resp] eqn:Hp; simpl.
  - exfalso. revert Hp. unfold patch_fields.
    intros (s1 & H1 & (s2 & H2 & (s3 & H3 & H4)%and_then_next)%and_then_next)%and_then_next.
    apply patch_gas_cost_effect in H1 as (_ & _ & _ & H1 & _).
    apply patch_fuel_price_effect in H2 as (_ & _ & _ & H2 & _).
    simpl in *. revert H3. unfold patch_start_km.
    rewrite (dict_has_lookup d _ _ Hd), (dict_get_lookup d _ _ Hd).
    rewrite H2, H1, He.
    destruct v; [simpl in Hv; discriminate|rewrite Hv; simpl..].
    all: by destruct (Z.gtb_spec start_km end_km); [|lia].
  - done.
  - by rewrite (patch_fields_return _ _ _ Hp).
Qed.
End UpdateFields.

(** ** The lists of the state *)

Lemma insert_by_sorted {A} (key : A → Z) x l :
  StronglySorted (λ a b, key a ≤ key b) l →
  StronglySorted (λ a b, key a ≤ key b) (insert_by key x l).
Proof.
  induction 1 as [|y l Hl IH Hy]; simpl.
  - constructor; [constructor|constructor].
  - destruct (Z.leb_spec (key x) (key y)).
    + constructor; [by constructor|]. constructor; [done|].
      eapply Forall_impl; [exact Hy|]. simpl. lia.
    + constructor; [done|]. rewrite insert_by_Permutation.
      constructor; [lia|done].
Qed.

Lemma order_by_sorted {A} (key : A → Z) l :
  StronglySorted (λ a b, key a ≤ key b) (order_by key l).
Proof.
  induction l as [|x l IH]; simpl; [constructor|]. by apply insert_by_sorted.
Qed.

Lemma StronglySorted_map {A B} (R : A → A → Prop) (S : B → B → Prop)
    (f : A → B) l :
  (∀ a b, R a b → S (f a) (f b)) →
  StronglySorted R l → StronglySorted S (map f l).
Proof.
  intros HRS. induction 1 as [|x l Hl IH Hx]; simpl; constructor; [done|].
  rewrite Forall_fmap. eapply Forall_impl; [exact Hx|]. intros b. apply HRS.
Qed.

(** X17. The state lists exactly the earnings and the expenses of its current
    cycle, each once, in ascending order of timestamp, and the current cycle
    is a row of the table. With an active cycle the state is that cycle's
    and reading it writes nothing. *)
Theorem get_app_state_lists now db :
  let r := get_app_state now db in
  ∃ cycle,
    currentCycle r.2 = Some cycle ∧ cycle ∈ cycles r.1
    ∧ earningsList r.2 ≡ₚ cycle_earnings r.1 cycle
    ∧ (∀ e, e ∈ earningsList r.2
            ↔ e ∈ earnings r.1 ∧ Earning.cycle_id e = CurrentCycle.id cycle)
    ∧ StronglySorted (λ a b, Earning.timestamp a ≤ Earning.timestamp b)
                     (earningsList r.2)
    ∧ expenseList r.2 ≡ₚ cycle_expenses r.1 cycle
    ∧ StronglySorted (λ a b, Expense.timestamp a ≤ Expense.timestamp b)
                     (expenseList r.2)
    ∧ archives_of_state r.2 = archives_list r.1
    ∧ (∀ active, get_active_cycle db = Some active →
                 r.1 = db ∧ cycle = active).
Proof.
  unfold get_app_state.
  pose proof (get_or_create_active_cycle_tables now db) as (_ & _ & _ & Hsub).
  assert (∀ active, get_active_cycle db = Some active →
                    get_or_create_active_cycle now db = (db, active)) as Hact
    by (intros; by apply get_or_create_active_cycle_found).
  assert ((get_or_create_active_cycle now db).2
          ∈ cycles (get_or_create_active_cycle now db).1) as Hin.
  { unfold get_or_create_active_cycle.
    destruct (get_active_cycle db) as [a|] eqn:Hf; simpl.
    - by apply get_active_cycle_elem_of.
    - apply elem_of_app. right. by left. }
  destruct (get_or_create_active_cycle now db) as [db' cycle]. simpl in *.
  exists cycle. split_and!; try done.
  - apply order_by_Permutation.
  - intros e. rewrite order_by_Permutation. unfold cycle_earnings.
    rewrite !list_elem_of_In, filter_In. by rewrite Z.eqb_eq.
  - apply order_by_sorted.
  - apply order_by_Permutation.
  - apply order_by_sorted.
  - intros active Hf. by specialize (Hact active Hf) as [= -> ->].
Qed.

(** X18. [GET /api/archives] lists one document for every archive row, newest
    first; each document is the stored one with [db_id] set to the key of
    its row and [archiveDate] to the [archive_date] of its row. The request
    writes nothing. *)
Theorem get_archives_newest_first db :
  get_archives db = (db, (Archives (archives_list db), 200))
  ∧ archives_list db ≡ₚ map Archive.to_dict (archives db)
  ∧ StronglySorted (λ a b, Archive.archiveDate b ≤ Archive.archiveDate a)
                   (archives_list db)
  ∧ ∀ doc, doc ∈ archives_list db →
           ∃ a, a ∈ archives db
                ∧ Archive.db_id doc = Some (Archive.id a)
                ∧ Archive.archiveDate doc = Archive.archive_date a
                ∧ Archive.detail doc = Archive.detail (Archive.archive_data a)
                ∧ Archive.earningsDetails doc
                  = Archive.earningsDetails (Archive.archive_data a)
                ∧ Archive.note doc = Archive.note (Archive.archive_data a)
                ∧ Archive.periodEndDate doc
                  = Archive.periodEndDate (Archive.archive_data a).
Proof.
  unfold archives_list. split_and!.
  - done.
  - by rewrite order_by_Permutation.
  - eapply StronglySorted_map; [|apply order_by_sorted]. simpl. lia.
  - intros doc (a & -> & Hin)%list_elem_of_fmap.
    rewrite order_by_Permutation in Hin. by exists a.
Qed.

(** ** The summary of a full-cycle archive *)




(** ** The cumulative total and the sum of the earnings *)

(** A delete lowers the total of the cycle of the earning by its amount, and
    moves no other total. *)
Lemma total_earnings_delete_eq e l i :
  NoDup (map Earning.id l) →
  e ∈ l →
  total_earnings
    (List.filter (λ r, negb (Earning.id r =? Earning.id e)) l) i
  = total_earnings l i
    - (if Earning.cycle_id e =? i then Earning.amount e else 0).
Proof.
  intros Hnd Hin.
  assert (∀ l, Earning.id e ∉ map Earning.id l →
               List.filter (λ r, negb (Earning.id r =? Earning.id e)) l = l)
    as Hid.
  { clear. induction l as [|r l IH]; simpl; [done|].
    intros [Hne Hn]%not_elem_of_cons.
    destruct (Z.eqb_spec (Earning.id r) (Earning.id e)); [congruence|].
    simpl. by rewrite IH. }
  induction l as [|r l IH]; [by apply elem_of_nil in Hin|].
  simpl in Hnd. apply NoDup_cons in Hnd as [Hr Hnd].
  apply elem_of_cons in Hin as [<-|Hin].
  - simpl. rewrite Z.eqb_refl. simpl. rewrite total_earnings_cons, Hid by done.
    lia.
  - simpl. destruct (Z.eqb_spec (Earning.id r) (Earning.id e)) as [Heq|Hne].
    + exfalso. apply Hr. rewrite Heq. by apply list_elem_of_fmap_2.
    + simpl. rewrite !total_earnings_cons, IH by done. lia.
Qed.

(** The amount of an earning is part of the total of its cycle. *)
Lemma total_earnings_elem_of e l :
  Forall (λ r, 0 ≤ Earning.amount r) l →
  e ∈ l →
  Earning.amount e ≤ total_earnings l (Earning.cycle_id e).
Proof.
  intros Hall Hin. induction Hall as [|r l Hr Hall IH];
    [by apply elem_of_nil in Hin|].
  rewrite total_earnings_cons.
  apply elem_of_cons in Hin as [<-|Hin].
  - rewrite Z.eqb_refl.
    pose proof (total_earnings_nonneg l (Earning.cycle_id e) Hall). lia.
  - specialize (IH Hin).
    destruct (Earning.cycle_id r =? Earning.cycle_id e); lia.
Qed.

Lemma balanced_commit db db' c :
  balanced db →
  cycles db' = save_cycle c (cycles db) →
  CurrentCycle.cumulative_earnings c
  = total_earnings (earnings db') (CurrentCycle.id c) →
  (∀ i, i ≠ CurrentCycle.id c →
        total_earnings (earnings db') i = total_earnings (earnings db) i) →
  balanced db'.
Proof.
  unfold balanced. intros Hb Hc Hsum Hother. rewrite Hc. unfold save_cycle.
  rewrite Forall_fmap. eapply Forall_impl; [exact Hb|]. intros r Hr. simpl in *.
  destruct (Z.eqb_spec (CurrentCycle.id r) (CurrentCycle.id c)) as [Heq|Hne];
    [done|].
  by rewrite Hother.
Qed.

Lemma balanced_tables db db' :
  balanced db →
  cycles db' = cycles db → earnings db' = earnings db →
  balanced db'.
Proof. unfold balanced. by intros ? -> ->. Qed.

Lemma balanced_active db a :
  balanced db →
  get_active_cycle db = Some a →
  CurrentCycle.cumulative_earnings a
  = total_earnings (earnings db) (CurrentCycle.id a).
Proof.
  unfold balanced. intros Hb Hf%get_active_cycle_elem_of.
  rewrite Forall_forall in Hb. by apply Hb.
Qed.

Lemma balanced_commit_same db db' a c :
  balanced db →
  get_active_cycle db = Some a →
  cycles db' = save_cycle c (cycles db) →
  earnings db' = earnings db →
  CurrentCycle.id c = CurrentCycle.id a →
  CurrentCycle.cumulative_earnings c = CurrentCycle.cumulative_earnings a →
  balanced db'.
Proof.
  intros Hb Hf Hc He Hid Hcum. apply (balanced_commit db db' c Hb Hc).
  - rewrite He, Hid, Hcum. by apply balanced_active.
  - by rewrite He.
Qed.

Lemma balanced_insert db db' c :
  Forall (λ e, Earning.cycle_id e < next_cycle_id db) (earnings db) →
  balanced db →
  cycles db' = cycles db ++ [c] → earnings db' = earnings db →
  CurrentCycle.id c = next_cycle_id db →
  CurrentCycle.cumulative_earnings c = 0 →
  balanced db'.
Proof.
  unfold balanced. intros Hrows Hb -> -> Hid Hcum.
  apply Forall_app. split; [done|]. apply Forall_singleton.
  by rewrite Hid, Hcum, total_earnings_fresh.
Qed.

Lemma get_or_create_active_cycle_balanced now db :
  Forall (λ e, Earning.cycle_id e < next_cycle_id db) (earnings db) →
  balanced db →
  balanced (get_or_create_active_cycle now db).1.
Proof.
  intros Hok Hb. unfold get_or_create_active_cycle.
  destruct (get_active_cycle db); [done|]. simpl.
  by eapply (balanced_insert db _ (CurrentCycle.inactive (next_cycle_id db) now)).
Qed.

Lemma get_app_state_balanced now db :
  Forall (λ e, Earning.cycle_id e < next_cycle_id db) (earnings db) →
  balanced db → balanced (get_app_state now db).1.
Proof. rewrite get_app_state_fst. apply get_or_create_active_cycle_balanced. Qed.

Lemma ledger_rows_below db :
  ledger_ok db →
  Forall (λ e, Earning.cycle_id e < next_cycle_id db) (earnings db).
Proof.
  intros [_ _ _ Hrows _]. eapply Forall_impl; [exact Hrows|]. by intros e [? _].
Qed.

Section Balance.
Context `{PyText}.

Lemma start_cycle_balanced now data db :
  ledger_ok db → balanced db → balanced (start_cycle now data db).1.
Proof.
  intros Hok%ledger_rows_below Hb. unfold start_cycle.
  destruct (negb (dict_truthy data)); [done|].
  destruct (match dict_get _ "gas_cost" with JNull => _ | _ => _ end)
    as [gas_cost|[]]; try done.
  destruct (gas_cost <=? 0); [done|].
  destruct (if truthy _ then _ else _) as [start_km|]; [|done].
  destruct (if truthy _ then _ else _) as [fuel_price|]; [|done].
  simpl.
  match goal with
  | |- balanced (mk_database (?l ++ [?c]) _ _ _ _ _ _ _) =>
      apply (balanced_insert
               (mk_database l (earnings db) (expenses db) (archives db)
                            (next_cycle_id db) (next_earning_id db)
                            (next_expense_id db) (next_archive_id db)) _ c);
      try done
  end.
  destruct (get_active_cycle db) as [a|] eqn:Hf.
  - by eapply (balanced_commit_same db _ a).
  - by eapply (balanced_tables db).
Qed.

Lemma finalize_cycle_balanced now data db :
  ledger_ok db → balanced db → balanced (finalize_cycle now data db).1.
Proof.
  intros Hok%ledger_rows_below Hb. unfold finalize_cycle, archive_and_deactivate.
  destruct (get_active_cycle db) as [a|] eqn:Hf; [|done].
  handler_cases; try done.
  all: rewrite respond_with_state_fst; apply get_app_state_balanced; [done|].
  all: by eapply (balanced_commit_same db _ a).
Qed.

Lemma add_earning_balanced now data db :
  no_negative_add (AddEarning data) →
  ledger_ok db → balanced db → balanced (add_earning now data db).1.
Proof.
  intros Hnn Hok Hb. simpl in Hnn. unfold add_earning.
  destruct (get_active_cycle db) as [a|] eqn:Hf; [|done].
  destruct (negb (CurrentCycle.is_active a)); [done|].
  destruct (_ || _); [done|].
  destruct (py_Decimal (dict_get (default ∅ data) "amount"))
    as [amount|] eqn:Ha; [|done].
  specialize (Hnn amount eq_refl). clear Ha.
  destruct (py_Decimal _) as [new_period_total|]; [|done].
  destruct (timestamp_of _ _) as [timestamp|]; [|done].
  destruct (Z.ltb_spec amount 0); [lia|].
  pose proof (balanced_active db a Hb Hf) as Hsum.
  destruct (ledger_active db a Hok Hf) as (Hid & _ & _).
  apply ledger_rows_below in Hok.
  rewrite respond_with_state_fst. apply get_app_state_balanced.
  { simpl. apply Forall_app. split; [done|]. by apply Forall_singleton. }
  destruct (amount >? 0).
  all: match goal with
       | |- balanced (mk_database (save_cycle ?c _) _ _ _ _ _ _ _) =>
           apply (balanced_commit db _ c Hb); simpl
       end.
  all: try done.
  all: try (rewrite total_earnings_app; simpl; rewrite Z.eqb_refl; lia).
  all: intros i Hi; rewrite total_earnings_app; simpl.
  all: destruct (Z.eqb_spec (CurrentCycle.id a) i); [congruence|lia].
Qed.

Lemma edit_earning_balanced now earning_id data db :
  ledger_ok db → balanced db →
  balanced (edit_earning now earning_id data db).1.
Proof.
  intros Hok Hb. unfold edit_earning.
  destruct (get_active_cycle db) as [a|] eqn:Hf; [|done].
  destruct (negb (CurrentCycle.is_active a)); [done|].
  destruct (find_earning db earning_id a) as [e|] eqn:He; [|done].
  destruct (_ || _); [done|].
  destruct (py_Decimal _) as [new_amount|[]]; try done.
  destruct (Z.ltb_spec new_amount 0); [done|].
  pose proof (balanced_active db a Hb Hf) as Hsum.
  destruct (find_earning_found db earning_id a e He) as (Hin & _ & Hcid).
  pose proof Hok as [_ _ Hnd _ _].
  apply ledger_rows_below in Hok.
  rewrite respond_with_state_fst. apply get_app_state_balanced.
  { simpl. apply Forall_save_earning; [done|]. simpl.
    rewrite Forall_forall in Hok. by apply Hok. }
  match goal with
  | |- balanced (mk_database (save_cycle ?c _) _ _ _ _ _ _ _) =>
      apply (balanced_commit db _ c Hb); simpl
  end.
  - done.
  - rewrite total_earnings_save_earning by done.
    rewrite Hcid, Z.eqb_refl. lia.
  - intros i Hi. rewrite total_earnings_save_earning by done.
    rewrite Hcid. destruct (Z.eqb_spec (CurrentCycle.id a) i); [congruence|lia].
Qed.

Lemma delete_earning_balanced now earning_id db :
  ledger_ok db → balanced db →
  balanced (delete_earning now earning_id db).1.
Proof.
  intros Hok Hb. unfold delete_earning.
  destruct (get_active_cycle db) as [a|] eqn:Hf; [|done].
  destruct (negb (CurrentCycle.is_active a)); [done|].
  destruct (find_earning db earning_id a) as [e|] eqn:He; [|done].
  pose proof (balanced_active db a Hb Hf) as Hsum.
  destruct (find_earning_found db earning_id a e He) as (Hin & _ & Hcid).
  pose proof Hok as [_ _ Hnd Hrows _].
  assert (Forall (λ r, 0 ≤ Earning.amount r) (earnings db)) as Hamounts.
  { eapply Forall_impl; [exact Hrows|]. by intros r [_ ?]. }
  pose proof (total_earnings_elem_of e (earnings db) Hamounts Hin) as Hle.
  pose proof (total_earnings_delete_eq e (earnings db)) as Hdel.
  apply ledger_rows_below in Hok.
  rewrite respond_with_state_fst. apply get_app_state_balanced.
  { simpl. by apply Forall_filter_list. }
  match goal with
  | |- balanced (mk_database (save_cycle ?c _) _ _ _ _ _ _ _) =>
      apply (balanced_commit db _ c Hb); simpl
  end.
  - done.
  - rewrite (Hdel (CurrentCycle.id a) Hnd Hin), Hcid, Z.eqb_refl.
    rewrite Hcid in Hle. lia.
  - intros i Hi. rewrite (Hdel i Hnd Hin), Hcid.
    destruct (Z.eqb_spec (CurrentCycle.id a) i); [congruence|lia].
Qed.

Lemma add_expense_balanced now data db :
  ledger_ok db → balanced db → balanced (add_expense now data db).1.
Proof.
  intros Hok%ledger_rows_below Hb. unfold add_expense. handler_cases; try done.
  all: rewrite respond_with_state_fst; by apply get_app_state_balanced.
Qed.

Lemma delete_expense_balanced now expense_id db :
  ledger_ok db → balanced db → balanced (delete_expense now expense_id db).1.
Proof.
  intros Hok%ledger_rows_below Hb. unfold delete_expense.
  handler_cases; try done.
  all: rewrite respond_with_state_fst; by apply get_app_state_balanced.
Qed.

Lemma archive_period_balanced now data db :
  ledger_ok db → balanced db → balanced (archive_period now data db).1.
Proof.
  intros Hok%ledger_rows_below Hb. unfold archive_period.
  destruct (get_active_cycle db) as [a|] eqn:Hf; [|done].
  destruct (negb (CurrentCycle.is_active a)); [done|].
  destruct (_ && _); [done|].
  rewrite respond_with_state_fst. apply get_app_state_balanced.
  { simpl. by apply Forall_filter_list. }
  match goal with
  | |- balanced (mk_database (save_cycle ?c _) _ _ _ _ _ _ _) =>
      apply (balanced_commit db _ c Hb); simpl
  end.
  - done.
  - by rewrite total_earnings_delete_cycle, Z.eqb_refl.
  - intros i Hi. rewrite total_earnings_delete_cycle.
    destruct (Z.eqb_spec i (CurrentCycle.id a)); [congruence|done].
Qed.

Lemma delete_archive_balanced archive_id db :
  balanced db → balanced (delete_archive archive_id db).1.
Proof. intros Hb. unfold delete_archive. by handler_cases. Qed.

Lemma update_cycle_fields_balanced now data db :
  ledger_ok db → balanced db → balanced (update_cycle_fields now data db).1.
Proof.
  intros Hok%ledger_rows_below Hb. unfold update_cycle_fields.
  destruct (get_active_cycle db) as [a|] eqn:Hf; [|done].
  destruct (negb (CurrentCycle.is_active a)); [done|].
  destruct (negb (dict_truthy data)); [done|].
  destruct (patch_fields _ a) as [[c updated]| |] eqn:Hp; try done.
  destruct updated; [|done].
  rewrite respond_with_state_fst. apply get_app_state_balanced; [done|].
  apply patch_fields_same in Hp as (? & ? & ? & ? & ? & ?).
  by eapply (balanced_commit_same db _ a).
Qed.

Lemma reset_database_balanced now db : balanced (reset_database now db).1.
Proof.
  unfold reset_database.
  match goal with
  | |- context [get_or_create_active_cycle now ?d] =>
      pose proof (get_or_create_active_cycle_balanced now d) as Hd;
      destruct (get_or_create_active_cycle now d)
  end.
  simpl in *. apply Hd; constructor.
Qed.

Lemma handle_balanced now req db :
  no_negative_add req → ledger_ok db → balanced db →
  balanced (handle now req db).1.
Proof.
  intros Hnn Hok Hb. destruct req; simpl.
  - unfold get_state. rewrite respond_with_state_fst.
    by apply get_app_state_balanced; [apply ledger_rows_below|].
  - by apply start_cycle_balanced.
  - by apply finalize_cycle_balanced.
  - by apply add_earning_balanced.
  - by apply edit_earning_balanced.
  - by apply delete_earning_balanced.
  - by apply add_expense_balanced.
  - by apply delete_expense_balanced.
  - done.
  - by apply archive_period_balanced.
  - by apply delete_archive_balanced.
  - by apply update_cycle_fields_balanced.
  - by apply reset_database_balanced.
Qed.

Lemma serve_balanced reqs db :
  Forall (λ nr : datetime * request, no_negative_add nr.2) reqs →
  ledger_ok db → balanced db → balanced (serve reqs db).
Proof.
  intros Hreqs. revert db.
  induction Hreqs as [|[now req] reqs Hreq _ IH]; intros db Hok Hb; simpl.
  - done.
  - apply IH; [by apply handle_ledger|by apply handle_balanced].
Qed.
End Balance.



Section Recalculation.
Context `{PyText}.

(** X20. As long as no [add] carries a negative amount, every cycle of the table,
    active or not, has in [cumulative_earnings] exactly the sum of the
    amounts of its earnings, after any requests. *)
Theorem cumulative_earnings_is_the_sum reqs :
  Forall (λ nr : datetime * request, no_negative_add nr.2) reqs →
  ∀ c, c ∈ cycles (serve reqs empty_database) →
       CurrentCycle.cumulative_earnings c
       = foldr (λ e acc, Earning.amount e + acc) 0
               (cycle_earnings (serve reqs empty_database) c).
Proof.
  intros Hreqs c Hc.
  pose proof (serve_balanced reqs empty_database Hreqs empty_database_ledger
                ltac:(constructor)) as Hb.
  unfold balanced in Hb. rewrite Forall_forall in Hb.
  by rewrite (Hb c Hc).
Qed.

End Recalculation.

(** ** Deleting an expense *)

Section Expenses.
Context `{PyText}.

(** X22. On an active cycle, [delete_expense] of one of its expenses removes
    every row with that key and no other row, and touches no cycle, no
    earning and no archive: no total depends on the expenses. An id that is
    no expense of the active cycle, be it the expense of an earlier cycle,
    is answered 404 and changes nothing. *)
Theorem delete_expense_effect now expense_id db cycle :
  get_active_cycle db = Some cycle →
  let r := delete_expense now expense_id db in
  ((∀ x, x ∈ expenses db → Expense.id x = expense_id →
         Expense.cycle_id x ≠ CurrentCycle.id cycle) →
   r = (db, (Error ExpenseNotFound, 404)))
  ∧ (∀ expense,
       find_expense db expense_id cycle = Some expense →
       r.2.2 = 200
       ∧ (∀ x, x ∈ expenses r.1 ↔ x ∈ expenses db ∧ Expense.id x ≠ expense_id)
       ∧ cycles r.1 = cycles db ∧ earnings r.1 = earnings db
       ∧ archives r.1 = archives db).
Proof.
  intros Hf.
  pose proof (get_active_cycle_is_active db cycle Hf) as Hact.
  unfold delete_expense. rewrite Hf, Hact. simpl negb. cbv iota. split.
  - intros Hnone.
    assert (find_expense db expense_id cycle = None) as ->; [|done].
    unfold find_expense. apply find_none_all. intros x Hin.
    destruct (Z.eqb_spec (Expense.id x) expense_id) as [Hid|]; [|done].
    apply list_elem_of_In in Hin. specialize (Hnone x Hin Hid). simpl.
    by apply Z.eqb_neq.
  - intros expense Hx. rewrite Hx.
    apply find_some in Hx as [Hin Hc].
    apply andb_true_iff in Hc as [Hid%Z.eqb_eq _].
    erewrite get_app_state_found by exact Hf.
    simpl. split_and!; try done.
    intros x. rewrite !list_elem_of_In, filter_In, Hid.
    destruct (Z.eqb_spec (Expense.id x) expense_id); simpl; intuition congruence.
Qed.
End Expenses.

(** ** The further properties at concrete stores *)

(** A cycle started at kilometre 1000 and finalized at kilometre 1200. *)
Lemma kilometres_stay_ordered_witness :
  let reqs := [(10, start_50_at_1000);
               (20, FinalizeCycle (Some {[ "end_km" := JInt 1200 ]}))] in
  CurrentCycle.mk 1 5000 (Some 1000) (Some 1200) None false 10 0 0 0 0
    ∈ cycles (serve reqs empty_database)
  ∧ 1000 ≤ 1200.
Proof.
  intros reqs.
  assert (CurrentCycle.mk 1 5000 (Some 1000) (Some 1200) None false 10 0 0 0 0
            ∈ cycles (serve reqs empty_database)) as Hin
    by (vm_compute; by left).
  split; [exact Hin|].
  exact (kilometres_stay_ordered reqs _ 1000 1200 Hin eq_refl eq_refl).
Defined.



(** The second cycle has none of the rows of the first. *)
Lemma started_cycle_is_empty_witness :
  let reqs := [(10, start_50);
               (11, AddEarning (Some (earning_of (JFloat 2000) (JFloat 2000))))] in
  let r := start_cycle 30 (Some {[ "gas_cost" := JStr "60.00" ]})
                       (serve reqs empty_database) in
  let new := CurrentCycle.mk 2 6000 None None None true 30 0 0 0 0 in
  cycle_earnings r.1 new = []
  ∧ cycle_expenses r.1 new = []
  ∧ (delete_earning 31 1 r.1).2.2 = 404.
Proof.
  intros reqs r new.
  assert (start_cycle 30 (Some {[ "gas_cost" := JStr "60.00" ]})
                      (serve reqs empty_database)
          = (r.1, (Cycle new, 201))) as Hs by (vm_compute; reflexivity).
  pose proof (started_cycle_is_empty reqs 30 _ r.1 new Hs) as Hempty.
  destruct Hempty as (He & Hx & Hearn & _).
  split_and!; [exact He|exact Hx|exact (proj2 (Hearn 31 1 None))].
Defined.

(** A [start_km] that is no integer, on the empty store. *)
Lemma start_cycle_start_km_not_caught_witness :
  let d : dict :=
    <[ "start_km" := JStr "12km" ]> {[ "gas_cost" := JStr "50.00" ]} in
  start_cycle 10 (Some d) empty_database
  = (empty_database, (Unhandled ValueError, 500)).
Proof.
  intros d.
  assert (dict_get d "gas_cost" ≠ JNull) as Hnull
    by (vm_compute; discriminate).
  assert (py_Decimal (dict_get d "gas_cost") = Ok 5000) as Hg
    by (vm_compute; reflexivity).
  assert (truthy (dict_get d "start_km") = true) as Ht
    by (vm_compute; reflexivity).
  assert (py_int (dict_get d "start_km") = Raise ValueError) as Hint
    by (vm_compute; reflexivity).
  exact (start_cycle_start_km_not_caught 10 d empty_database 5000 ValueError
           Hnull Hg ltac:(lia) Ht Hint).
Defined.

(** A cycle with one earning, finalized. *)
Lemma finalize_cycle_leaves_no_active_cycle_witness :
  let reqs := [(10, start_50);
               (11, AddEarning (Some (earning_of (JFloat 2000) (JFloat 2000))))] in
  let r := finalize_cycle 20 None (serve reqs empty_database) in
  get_active_cycle r.1 = None
  ∧ earnings r.1 = earnings (serve reqs empty_database)
  ∧ (handle 21 (DeleteEarning 1) r.1).2.2 = 400.
Proof.
  intros reqs r.
  assert (r.2.2 = 200) as H200 by (vm_compute; reflexivity).
  pose proof (finalize_cycle_leaves_no_active_cycle reqs 20 None H200) as Hfin.
  destruct Hfin as (Hnone & He & _ & _ & _ & Hreq).
  split_and!; [exact Hnone|exact He|].
  exact (proj1 (Hreq 21 (DeleteEarning 1) I)).
Defined.

(** The period of [earning_20] archived twice. *)
Lemma archive_period_twice_witness :
  archive_period 21 None (archive_period 20 None earning_20).1
  = ((archive_period 20 None earning_20).1, (Error NothingToArchive, 400)).
Proof.
  assert ((archive_period 20 None earning_20).2.2 = 200) as H200
    by (vm_compute; reflexivity).
  exact (archive_period_twice 20 21 None None earning_20 H200).
Defined.


(** At [earning_20], an earning that does not exist and the one that does. *)
Lemma delete_earning_effect_witness :
  delete_earning 15 7 earning_20 = (earning_20, (Error EarningNotFound, 404))
  ∧ (delete_earning 15 1 earning_20).2.2 = 200
  ∧ Earning.mk 1 1 11 2000 ∉ earnings (delete_earning 15 1 earning_20).1.
Proof.
  assert (get_active_cycle earning_20
          = Some (CurrentCycle.mk 1 5000 None None None true 10 2000 1 2000 1))
    as Hf by (vm_compute; reflexivity).
  assert (find_earning earning_20 7
            (CurrentCycle.mk 1 5000 None None None true 10 2000 1 2000 1)
          = None) as H7 by (vm_compute; reflexivity).
  assert (find_earning earning_20 1
            (CurrentCycle.mk 1 5000 None None None true 10 2000 1 2000 1)
          = Some (Earning.mk 1 1 11 2000)) as H1 by (vm_compute; reflexivity).
  split.
  - pose proof (delete_earning_effect 15 7 earning_20 _ Hf) as [Hnone _].
    exact (Hnone H7).
  - pose proof (delete_earning_effect 15 1 earning_20 _ Hf) as [_ Hsome].
    destruct (Hsome _ H1) as (H200 & Hrows & _).
    split; [exact H200|]. intros Hin. apply Hrows in Hin as [_ Hne].
    apply Hne. reflexivity.
Defined.


(** The cycle of [started_at_1000] patched with an [end_km] of 1200. *)
Lemma update_cycle_fields_effect_witness :
  let data : option dict := Some {[ "end_km" := JInt 1200 ]} in
  let cycle := CurrentCycle.mk 1 5000 (Some 1000) None None true 10 0 0 0 0 in
  let r := update_cycle_fields 11 data started_at_1000 in
  earnings r.1 = earnings started_at_1000
  ∧ ∃ cycle', get_active_cycle r.1 = Some cycle'
              ∧ same_row cycle cycle'
              ∧ CurrentCycle.gas_cost cycle' = 5000
              ∧ CurrentCycle.start_km cycle' = Some 1000
              ∧ CurrentCycle.end_km cycle' = Some 1200.
Proof.
  intros data cycle r.
  assert (get_active_cycle started_at_1000 = Some cycle) as Hf
    by (vm_compute; reflexivity).
  assert (r.2.2 = 200) as H200 by (vm_compute; reflexivity).
  pose proof (update_cycle_fields_effect 11 data started_at_1000 cycle Hf H200)
    as (He & _ & _ & _ & cycle' & Hf' & Hsame & _ & Hg & _ & Hs & Hend).
  assert (Ok (Some 1200) = Ok (CurrentCycle.end_km cycle')) as Hend'
    by exact Hend.
  injection Hend' as Hend'.
  split; [exact He|]. exists cycle'.
  split_and!; [exact Hf'|exact Hsame|exact Hg|exact Hs|symmetry; exact Hend'].
Defined.

(** A cycle from kilometre 1000 to kilometre 1200, patched with a
    [start_km] of 1300 and an [end_km] of 1400. *)
Lemma update_cycle_fields_start_km_above_end_km_witness :
  let db := serve [(10, start_50_at_1000);
                   (11, UpdateCycleFields (Some {[ "end_km" := JInt 1200 ]}))]
                  empty_database in
  let d : dict := <[ "start_km" := JInt 1300 ]> {[ "end_km" := JInt 1400 ]} in
  (update_cycle_fields 12 (Some d) db).2.2 = 400
  ∧ (update_cycle_fields 12 (Some d) db).1 = db.
Proof.
  intros db d.
  assert (get_active_cycle db
          = Some (CurrentCycle.mk 1 5000 (Some 1000) (Some 1200) None true 10
                                  0 0 0 0)) as Hf by (vm_compute; reflexivity).
  assert (d !! "start_km" = Some (JInt 1300)) as Hd
    by (vm_compute; reflexivity).
  assert (py_int (JInt 1300) = Ok 1300) as Hv by (vm_compute; reflexivity).
  exact (update_cycle_fields_start_km_above_end_km 12 d db _ _ 1300 1200
           Hf eq_refl Hd Hv ltac:(lia)).
Defined.


(** The cycle of [earning_20] has earned 20.00, the amount of its one
    earning. *)
Lemma cumulative_earnings_is_the_sum_witness :
  let reqs := [(10, start_50);
               (11, AddEarning (Some (earning_of (JFloat 2000) (JFloat 2000))))] in
  let c := CurrentCycle.mk 1 5000 None None None true 10 2000 1 2000 1 in
  c ∈ cycles (serve reqs empty_database)
  ∧ CurrentCycle.cumulative_earnings c
    = foldr (λ e acc, Earning.amount e + acc) 0
            (cycle_earnings (serve reqs empty_database) c).
Proof.
  intros reqs c.
  assert (Forall (λ nr : datetime * request, no_negative_add nr.2) reqs)
    as Hreqs.
  { repeat constructor. simpl. vm_compute. intros amount [= <-]. discriminate. }
  assert (c ∈ cycles (serve reqs empty_database)) as Hin
    by (vm_compute; by left).
  split; [exact Hin|].
  exact (cumulative_earnings_is_the_sum reqs Hreqs c Hin).
Defined.


(** At [earning_20], an expense that does not exist and the one that does. *)
Lemma delete_expense_effect_witness :
  delete_expense 15 7 earning_20 = (earning_20, (Error ExpenseNotFound, 404))
  ∧ (delete_expense 15 1 earning_20).2.2 = 200
  ∧ cycles (delete_expense 15 1 earning_20).1 = cycles earning_20.
Proof.
  assert (get_active_cycle earning_20
          = Some (CurrentCycle.mk 1 5000 None None None true 10 2000 1 2000 1))
    as Hf by (vm_compute; reflexivity).
  assert (expenses earning_20 = [Expense.mk 1 1 12 (JStr "toll") 1000]) as Hx
    by (vm_compute; reflexivity).
  assert (find_expense earning_20 1
            (CurrentCycle.mk 1 5000 None None None true 10 2000 1 2000 1)
          = Some (Expense.mk 1 1 12 (JStr "toll") 1000)) as H1
    by (vm_compute; reflexivity).
  split.
  - pose proof (delete_expense_effect 15 7 earning_20 _ Hf) as [Hnone _].
    apply Hnone. intros x Hin Hid. rewrite Hx in Hin.
    apply list_elem_of_singleton in Hin. rewrite Hin in Hid. discriminate Hid.
  - pose proof (delete_expense_effect 15 1 earning_20 _ Hf) as [_ Hsome].
    destruct (Hsome _ H1) as (H200 & _ & Hc & _).
    split; [exact H200|exact Hc].
Defined.
